(** * The [link] command of the Hydrogen CLI

    A shallow embedding of [linkStorefront] and [createNewStorefront]
    (the command module [commands/hydrogen/link.ts]) together with the
    properties of the linking workflow stated about them.

    The two functions are asynchronous TypeScript: they await network
    calls and interactive prompts, write the project's configuration and
    may throw.  They are embedded in a small monad that threads a state,
    returns either a value or the thrown error, and logs every call made
    to an external collaborator. *)

From Stdlib Require Import String List Bool Arith Lia.
From stdpp Require Import gmap strings.
From Stdlib Require QArith DecimalString.
Import ListNotations.

Local Open Scope string_scope.
Local Open Scope list_scope.

(** ** Data *)

(** [interface HydrogenStorefront] *)
Record HydrogenStorefront := mkStorefront {
  id : string;
  title : string;
  productionUrl : string;
}.

(** The [storefront] entry of [ShopifyConfig]: the identity of the linked
    storefront. *)
Record LinkedStorefront := mkLinked {
  linked_id : string;
  linked_title : string;
}.

(** [ShopifyConfig] ([lib/shopify-config.js]); both properties are
    optional. *)
Record ShopifyConfig := mkConfig {
  shop : option string;
  storefront : option LinkedStorefront;
}.

(** The options object of [linkStorefront]:
    [{force?: boolean; flagStorefront?: string; cliCommand: string}]. *)
Record LinkOptions := mkOptions {
  force : option bool;
  flagStorefront : option string;
  cliCommand : string;
}.

(** What [createStorefront] resolves to; [createNewStorefront] copies the
    two properties into variables of type [HydrogenStorefront | undefined]
    and [string | undefined]. *)
Record CreateResult := mkCreated {
  created_storefront : option HydrogenStorefront;
  created_jobId : option string;
}.

(** A choice of the select prompt; the value [null] is [None]. *)
Record Choice := mkChoice {
  label : string;
  value : option string;
}.

(** The tokens of a warning's body: plain text, [{userInput: _}] and
    [{command: _}]. *)
Inductive Token :=
| Text (s : string)
| UserInput (s : string)
| Command (s : string).

(** Thrown values: the CLI's [AbortError], or anything else that an
    external collaborator throws. *)
Inductive Thrown :=
| AbortError (message : string)
| OtherError (what : string).

Inductive Result (A : Type) :=
| Ok (a : A)
| Err (e : Thrown).
Arguments Ok {A} a.
Arguments Err {A} e.

(** JavaScript truthiness of a value of type [string | undefined]:
    [undefined] and the empty string are falsy. *)
Definition truthy (v : option string) : bool :=
  match v with
  | Some s => negb (String.eqb s "")
  | None => false
  end.

(** ** Calls to the external collaborators *)

Inductive Event :=
| EConfirm (message : string)
| ESelect (message : string) (choices : list Choice)
| ETextPrompt (message defaultValue : string)
| EWarning (headline : string) (body : list Token)
| EGetStorefronts
| ECreateStorefront (name : string)
| EWaitForJob (jobId : option string)
| ETask (task_title : string)
| ESetStorefront (root : string) (sf : HydrogenStorefront).

Definition is_write (ev : Event) : bool :=
  match ev with ESetStorefront _ _ => true | _ => false end.

Definition is_wait (ev : Event) : bool :=
  match ev with EWaitForJob _ => true | _ => false end.

Definition is_network (ev : Event) : bool :=
  match ev with
  | EGetStorefronts | ECreateStorefront _ | EWaitForJob _ => true
  | _ => false
  end.

Definition is_warning (ev : Event) : bool :=
  match ev with EWarning _ _ => true | _ => false end.

Definition runs_task (t : string) (ev : Event) : bool :=
  match ev with ETask t' => String.eqb t t' | _ => false end.

(** Number of writes to the Local Config Store in a log. *)
Definition writes (log : list Event) : nat := length (List.filter is_write log).

(** The Local Config Store: one record per project root. *)
Abbreviation Store := (gmap string HydrogenStorefront).

(** ** The monad *)

Definition M (St A : Type) : Type := St -> Result A * St * list Event.

Definition ret {St A} (a : A) : M St A := fun s => (Ok a, s, []).

Definition throw {St A} (e : Thrown) : M St A := fun s => (Err e, s, []).

Definition bind {St A B} (m : M St A) (k : A -> M St B) : M St B :=
  fun s =>
    match m s with
    | (Ok a, s1, log1) =>
        match k a s1 with
        | (r, s2, log2) => (r, s2, log1 ++ log2)
        end
    | (Err e, s1, log1) => (Err e, s1, log1)
    end.

(** [try { m } catch (_err) { h }] *)
Definition try_catch {St A} (m : M St A) (h : Thrown -> M St A) : M St A :=
  fun s =>
    match m s with
    | (Ok a, s1, log1) => (Ok a, s1, log1)
    | (Err e, s1, log1) =>
        match h e s1 with
        | (r, s2, log2) => (r, s2, log1 ++ log2)
        end
    end.

Definition get {St} : M St St := fun s => (Ok s, s, []).

Definition modify {St} (f : St -> St) : M St unit := fun s => (Ok tt, f s, []).

(** An external call: it is logged and answers [r]. *)
Definition call {St A} (ev : Event) (r : Result A) : M St A :=
  fun s => (r, s, [ev]).

(** Runs [m] with a fresh block of local variables next to the state. *)
Definition with_locals {St L A} (init : L) (m : M (St * L) A) : M St A :=
  fun s =>
    match m (s, init) with
    | (r, (s1, _), log) => (r, s1, log)
    end.

Declare Scope link_scope.
Delimit Scope link_scope with link.
Notation "x <- m ;; k" := (bind m (fun x => k))
  (at level 100, m at next level, right associativity) : link_scope.
Notation "m ;;; k" := (bind m (fun _ => k))
  (at level 100, right associativity) : link_scope.
Local Open Scope link_scope.

Definition result_of {St A} (x : Result A * St * list Event) : Result A := fst (fst x).
Definition state_of {St A} (x : Result A * St * list Event) : St := snd (fst x).
Definition log_of {St A} (x : Result A * St * list Event) : list Event := snd x.

(** ** The external collaborators

    None of them is part of the command module; a [World] fixes how each
    answers.  Prompts answer with a value; the three calls to the remote
    platform either resolve or throw. *)

Record World (Session : Type) := mkWorld {
  (** the user's answer to a confirmation prompt with this message *)
  confirm_answer : string -> bool;
  (** the value of the choice the user selects *)
  select_answer : string -> list Choice -> option string;
  (** the text the user enters, given the message and the default *)
  text_answer : string -> string -> string;
  (** the Remote Storefront Directory *)
  storefronts_response : Session -> Result (list HydrogenStorefront);
  (** the Remote Storefront Creator *)
  create_response : Session -> string -> Result CreateResult;
  (** the Async Job Waiter *)
  job_response : Session -> option string -> Result unit;
  (** [basename] of [@shopify/cli-kit/node/path] *)
  basename : string -> string;
  (** [titleize] of [lib/string.js] *)
  titleize : string -> string;
}.
Arguments confirm_answer {Session} w _.
Arguments select_answer {Session} w _ _.
Arguments text_answer {Session} w _ _.
Arguments storefronts_response {Session} w _.
Arguments create_response {Session} w _ _.
Arguments job_response {Session} w _ _.
Arguments basename {Session} w _.
Arguments titleize {Session} w _.

(** The variables [storefront] and [jobId] that the two task closures of
    [createNewStorefront] capture and assign. *)
Record Locals := mkLocals {
  storefront_var : option HydrogenStorefront;
  jobId_var : option string;
}.

(** An entry of the list handed to [renderTasks]. *)
Record Task (St : Type) := mkTask {
  task_title : string;
  task : M St unit;
  skip : option (St -> bool);
}.
Arguments task_title {St} t.
Arguments task {St} t.
Arguments skip {St} t.

(** Modelled from the spec: [renderTasks] of [@shopify/cli-kit/node/ui] is
    not part of the sources.  It is the task runner of section 4.2: the
    entries run strictly in sequence, an entry whose [skip] predicate
    holds when its turn comes is not run, and a failure of an entry
    propagates immediately, so that the entries after it do not run. *)
Fixpoint renderTasks {St} (tasks : list (Task St)) : M St unit :=
  match tasks with
  | [] => ret tt
  | t :: rest =>
      s <- get ;;
      (if match skip t with Some p => p s | None => false end
       then ret tt
       else (call (ETask (task_title t)) (Ok tt) ;;; task t)) ;;;
      renderTasks rest
  end.

Definition UNKNOWN_ERROR : string :=
  "Unknown error ocurred. Please try again or contact support if the error persists.".

Definition NO_SHOP : string := "No shop found in local config, login first.".

Definition CREATING_STOREFRONT : string := "Creating storefront".
Definition CREATING_API_TOKENS : string := "Creating API tokens".

Section Link.

Context {Session : Type}.
Variable w : World Session.

(** *** Wrappers of the external calls *)

Definition renderConfirmationPrompt {St} (message : string) : M St bool :=
  call (EConfirm message) (Ok (confirm_answer w message)).

Definition renderSelectPrompt {St} (message : string) (choices : list Choice)
  : M St (option string) :=
  call (ESelect message choices) (Ok (select_answer w message choices)).

Definition renderTextPrompt {St} (message defaultValue : string) : M St string :=
  call (ETextPrompt message defaultValue) (Ok (text_answer w message defaultValue)).

Definition renderWarning {St} (headline : string) (body : list Token) : M St unit :=
  call (EWarning headline body) (Ok tt).

Definition getStorefronts {St} (session : Session) : M St (list HydrogenStorefront) :=
  call EGetStorefronts (storefronts_response w session).

Definition createStorefront {St} (session : Session) (name : string) : M St CreateResult :=
  call (ECreateStorefront name) (create_response w session name).

(** The argument is what [jobId!] evaluates to at run time: the
    non-null assertion is erased by the compiler. *)
Definition waitForJob {St} (session : Session) (jobId : option string) : M St unit :=
  call (EWaitForJob jobId) (job_response w session jobId).

(** Modelled from the spec: [setStorefront] of [lib/shopify-config.js] is
    not part of the sources.  It is [writeLinkedConfig(root,
    StorefrontSummary)] of section 6: the storefront is persisted in the
    Local Config Store, a single record per project root.  The write
    itself is taken to succeed. *)
Definition setStorefront (root : string) (sf : HydrogenStorefront) : M Store unit :=
  fun store => (Ok tt, <[root := sf]> store, [ESetStorefront root sf]).

(** *** [createNewStorefront] *)

Definition set_storefront {St} (v : option HydrogenStorefront) : M (St * Locals) unit :=
  modify (fun '(s, l) => (s, mkLocals v (jobId_var l))).

Definition set_jobId {St} (v : option string) : M (St * Locals) unit :=
  modify (fun '(s, l) => (s, mkLocals (storefront_var l) v)).

Definition creatingStorefront {St} (session : Session) (projectName : string)
  : Task (St * Locals) :=
  {| task_title := CREATING_STOREFRONT;
     task :=
       result <- createStorefront session projectName ;;
       set_storefront (created_storefront result) ;;;
       set_jobId (created_jobId result);
     skip := None |}.

Definition creatingApiTokens {St} (session : Session) : Task (St * Locals) :=
  {| task_title := CREATING_API_TOKENS;
     task :=
       try_catch
         (s <- get ;; waitForJob session (jobId_var (snd s)))
         (fun _err => set_storefront None);
     skip := Some (fun s => negb (truthy (jobId_var (snd s)))) |}.

(** The call [renderTasks([...])] of lines 178-198. *)
Definition creationTasks {St} (session : Session) (projectName : string)
  : M (St * Locals) unit :=
  renderTasks [creatingStorefront session projectName; creatingApiTokens session].

Definition createNewStorefront {St} (root : string) (session : Session)
  : M St HydrogenStorefront :=
  let projectDirectory := basename w root in
  projectName <- renderTextPrompt "New storefront name" (titleize w projectDirectory) ;;
  with_locals (mkLocals None None)
    (creationTasks session projectName ;;;
     s <- get ;;
     match storefront_var (snd s) with
     | None => throw (AbortError UNKNOWN_ERROR)
     | Some storefront => ret storefront
     end).

(** *** [linkStorefront] *)

Definition overwrite_message (linked : LinkedStorefront) : string :=
  "Your project is currently linked to " +:+ linked_title linked +:+
  ". Do you want to link to a different Hydrogen storefront on Shopify?".

Definition not_found_body (flag : string) (config : ShopifyConfig) (cliCommand : string)
  : list Token :=
  [ Text "There's no storefront matching";
    UserInput flag;
    Text "on your";
    UserInput (default "" (shop config));
    Text "shop. To see all available Hydrogen storefronts, run";
    Command (cliCommand +:+ " list") ].

Definition select_choices (storefronts : list HydrogenStorefront) : list Choice :=
  {| label := "Create a new storefront"; value := None |} ::
  map (fun sf => {| label := title sf +:+ " (" +:+ productionUrl sf +:+ ")";
                    value := Some (id sf) |}) storefronts.

(** [config.storefront?.id] *)
Definition linked_id_of (config : ShopifyConfig) : option string :=
  match storefront config with
  | Some linked => Some (linked_id linked)
  | None => None
  end.

(** Lines 160-164: persist the selection, if any, and return it. *)
Definition persist (root : string) (selectedStorefront : option HydrogenStorefront)
  : M Store (option HydrogenStorefront) :=
  (match selectedStorefront with
   | Some sf => setStorefront root sf
   | None => ret tt
   end) ;;;
  ret selectedStorefront.

(** Lines 110-164: everything after the overwrite confirmation. *)
Definition resolve (root : string) (session : Session) (config : ShopifyConfig)
    (flagStorefront : option string) (cliCommand : string)
  : M Store (option HydrogenStorefront) :=
  storefronts <- getStorefronts session ;;
  if truthy flagStorefront then
    let flag := default "" flagStorefront in
    let selectedStorefront := find (fun sf => String.eqb (title sf) flag) storefronts in
    match selectedStorefront with
    | None =>
        renderWarning ("Couldn't find " +:+ flag) (not_found_body flag config cliCommand) ;;;
        ret None
    | Some _ => persist root selectedStorefront
    end
  else
    storefrontId <- renderSelectPrompt "Select a Hydrogen storefront to link"
                      (select_choices storefronts) ;;
    selectedStorefront <-
      (if truthy storefrontId
       then ret (find (fun sf => String.eqb (id sf) (default "" storefrontId)) storefronts)
       else (created <- createNewStorefront root session ;; ret (Some created))) ;;
    persist root selectedStorefront.

Definition linkStorefront (root : string) (session : Session) (config : ShopifyConfig)
    (options : LinkOptions) : M Store (option HydrogenStorefront) :=
  let force := default false (force options) in
  let flagStorefront := flagStorefront options in
  let cliCommand := cliCommand options in
  if negb (truthy (shop config)) then throw (AbortError NO_SHOP)
  else if truthy (linked_id_of config) && negb force then
    overwriteLink <- renderConfirmationPrompt
                       (overwrite_message (default (mkLinked "" "") (storefront config))) ;;
    if negb overwriteLink then ret None
    else resolve root session config flagStorefront cliCommand
  else resolve root session config flagStorefront cliCommand.

(** *** Vocabulary of the properties *)

(** The user is asked to confirm the overwrite and declines: the
    condition under which line 106 returns. *)
Definition overwrite_declined (config : ShopifyConfig) (options : LinkOptions) : bool :=
  truthy (linked_id_of config) && negb (default false (force options)) &&
  negb (confirm_answer w (overwrite_message (default (mkLinked "" "") (storefront config)))).

(** What lines 100-108 log when they do not return. *)
Definition confirm_log (config : ShopifyConfig) (options : LinkOptions) : list Event :=
  if truthy (linked_id_of config) && negb (default false (force options))
  then [EConfirm (overwrite_message (default (mkLinked "" "") (storefront config)))]
  else [].

(** The name under which [createNewStorefront] creates the storefront:
    the user's answer to the text prompt. *)
Definition project_name (root : string) : string :=
  text_answer w "New storefront name" (titleize w (basename w root)).

(** The outcome of [createNewStorefront] as a function of the answers of
    the creator and of the job waiter. *)
Definition creation_outcome (root : string) (session : Session)
  : Result HydrogenStorefront * list Event :=
  let name := project_name root in
  let prompt := ETextPrompt "New storefront name" (titleize w (basename w root)) in
  match create_response w session name with
  | Err e => (Err e, [prompt; ETask CREATING_STOREFRONT; ECreateStorefront name])
  | Ok r =>
      if truthy (created_jobId r) then
        (match job_response w session (created_jobId r) with
         | Ok _ =>
             match created_storefront r with
             | Some sf => Ok sf
             | None => Err (AbortError UNKNOWN_ERROR)
             end
         | Err _ => Err (AbortError UNKNOWN_ERROR)
         end,
         [prompt; ETask CREATING_STOREFRONT; ECreateStorefront name;
          ETask CREATING_API_TOKENS; EWaitForJob (created_jobId r)])
      else
        (match created_storefront r with
         | Some sf => Ok sf
         | None => Err (AbortError UNKNOWN_ERROR)
         end,
         [prompt; ETask CREATING_STOREFRONT; ECreateStorefront name])
  end.

(** [sf] is the first storefront of the list with this title. *)
Definition first_titled (flag : string) (storefronts : list HydrogenStorefront)
    (sf : HydrogenStorefront) : Prop :=
  exists before after,
    storefronts = before ++ sf :: after /\
    title sf = flag /\
    forall other, In other before -> title other <> flag.

(** [sf] is a fully resolved selection: the fetched list was obtained and
    [sf] is the match of the flag, the user's pick, or the storefront that
    the creation pipeline returned. *)
Definition Resolved (root : string) (session : Session) (options : LinkOptions)
    (store : Store) (sf : HydrogenStorefront) : Prop :=
  exists storefronts,
    storefronts_response w session = Ok storefronts /\
    let flag := flagStorefront options in
    let picked := select_answer w "Select a Hydrogen storefront to link"
                    (select_choices storefronts) in
    (truthy flag = true /\
     find (fun x => String.eqb (title x) (default "" flag)) storefronts = Some sf)
    \/
    (truthy flag = false /\ truthy picked = true /\
     find (fun x => String.eqb (id x) (default "" picked)) storefronts = Some sf)
    \/
    (truthy flag = false /\ truthy picked = false /\
     result_of (createNewStorefront root session store) = Ok sf).

End Link.

(** ** Sample data *)

Definition janes_apparel : HydrogenStorefront :=
  mkStorefront "gid://shopify/HydrogenStorefront/1" "Jane's Apparel" "https://janes.example".

Definition snow_shop : HydrogenStorefront :=
  mkStorefront "gid://shopify/HydrogenStorefront/2" "Snow Shop" "https://snow.example".

(** A second storefront with the title of [snow_shop]. *)
Definition snow_shop_bis : HydrogenStorefront :=
  mkStorefront "gid://shopify/HydrogenStorefront/3" "Snow Shop" "https://snow2.example".

Definition fresh_storefront : HydrogenStorefront :=
  mkStorefront "gid://shopify/HydrogenStorefront/9" "My Cool Shop" "".

Definition sample_root : string := "/home/dev/my-cool-shop".

Definition sample_config : ShopifyConfig :=
  mkConfig (Some "janes.myshopify.com") None.

Definition linked_config : ShopifyConfig :=
  mkConfig (Some "janes.myshopify.com")
           (Some (mkLinked "gid://shopify/HydrogenStorefront/1" "Jane's Apparel")).

(** A world parametrised by what the user and the remote platform answer:
    the confirmation, the selection, the creator and the job waiter. *)
Definition sample_world (confirm : bool) (pick : option string)
    (created : Result CreateResult) (job : Result unit) : World unit :=
  {| confirm_answer := fun _ => confirm;
     select_answer := fun _ _ => pick;
     text_answer := fun _ defaultValue => defaultValue;
     storefronts_response := fun _ => Ok [janes_apparel; snow_shop; snow_shop_bis];
     create_response := fun _ _ => created;
     job_response := fun _ _ => job;
     basename := fun _ => "my-cool-shop";
     titleize := fun _ => "My Cool Shop" |}.

(** The creator answers with a storefront and no job. *)
Definition created_without_job : Result CreateResult :=
  Ok (mkCreated (Some fresh_storefront) None).

(** The creator answers with a storefront and a job. *)
Definition created_with_job : Result CreateResult :=
  Ok (mkCreated (Some fresh_storefront) (Some "gid://shopify/Job/7")).

(** Options of the [link] command: an explicit storefront name, the same
    with [--force], and none. *)
Definition explicit (flag : string) : LinkOptions :=
  mkOptions None (Some flag) "npx shopify hydrogen".

Definition forced (flag : string) : LinkOptions :=
  mkOptions (Some true) (Some flag) "npx shopify hydrogen".

Definition interactive : LinkOptions := mkOptions None None "npx shopify hydrogen".

(** The user confirms and creates a storefront; the job completes. *)
Definition quiet : World unit := sample_world true None created_with_job (Ok tt).

(** The job waiter throws. *)
Definition failing_job : World unit :=
  sample_world true None created_with_job (Err (OtherError "job timed out")).

(** The creator throws. *)
Definition failing_creator : World unit :=
  sample_world true None (Err (OtherError "Could not create storefront")) (Ok tt).

(** ** The rest of the [link] command *)

(** Kinds of calls in a log. *)
Definition is_confirm (ev : Event) : bool :=
  match ev with EConfirm _ => true | _ => false end.

Definition is_select (ev : Event) : bool :=
  match ev with ESelect _ _ => true | _ => false end.

Definition is_text_prompt (ev : Event) : bool :=
  match ev with ETextPrompt _ _ => true | _ => false end.

Definition is_fetch (ev : Event) : bool :=
  match ev with EGetStorefronts => true | _ => false end.

Definition is_create (ev : Event) : bool :=
  match ev with ECreateStorefront _ => true | _ => false end.

(** [interface LinkStorefrontArguments] *)
Record LinkStorefrontArguments := mkArguments {
  arg_force : option bool;
  arg_path : option string;
  arg_storefront : option string;
}.

(** What [runLink] adds to the calls of [linkStorefront]: the two calls
    started by [Promise.all] and the success banner. *)
Inductive RunEvent :=
| Linking (ev : Event)
| ELogin (root : string)
| EGetCliCommand
| ESuccess (body : list Token) (nextSteps : list (list Token)).

Definition is_success (ev : RunEvent) : bool :=
  match ev with ESuccess _ _ => true | _ => false end.

(** The environment of [runLink]: the working directory, the answers of
    [login] ([lib/auth.js]) and [getCliCommand] ([lib/shell.js]), and, when
    both reject, which of the two rejections [Promise.all] sees first. *)
Record Shell (Session : Type) := mkShell {
  cwd : string;
  login_response : string -> Result (Session * ShopifyConfig);
  cli_command_response : Result string;
  login_rejects_first : bool;
}.
Arguments cwd {Session} _.
Arguments login_response {Session} _ _.
Arguments cli_command_response {Session} _.
Arguments login_rejects_first {Session} _.

Section RunLink.

Context {Session : Type}.
Variable w : World Session.
Variable sh : Shell Session.

(** [Promise.all([login(root), getCliCommand()])]: both calls are started;
    the result is the pair of the answers, or the rejection seen first. *)
Definition login_and_command (root : string)
  : Result (Session * ShopifyConfig * string) :=
  match login_response sh root, cli_command_response sh with
  | Ok logged, Ok cliCommand => Ok (logged, cliCommand)
  | Err e, Ok _ => Err e
  | Ok _, Err e => Err e
  | Err e1, Err e2 => Err (if login_rejects_first sh then e1 else e2)
  end.

Definition success_body (linkedStore : HydrogenStorefront) : list Token :=
  [UserInput (title linkedStore); Text "is now linked"].

Definition success_nextSteps (cliCommand : string) : list (list Token) :=
  [[Text "Run"; Command (cliCommand +:+ " dev");
    Text "to start your local development server and start building"]].

Definition runLink (arguments : LinkStorefrontArguments) (store : Store)
  : Result unit * Store * list RunEvent :=
  let root := default (cwd sh) (arg_path arguments) in
  match login_and_command root with
  | Err e => (Err e, store, [ELogin root; EGetCliCommand])
  | Ok (session, config, cliCommand) =>
      match linkStorefront w root session config
              (mkOptions (arg_force arguments) (arg_storefront arguments) cliCommand)
              store with
      | (Err e, store1, log) =>
          (Err e, store1, ELogin root :: EGetCliCommand :: map Linking log)
      | (Ok None, store1, log) =>
          (Ok tt, store1, ELogin root :: EGetCliCommand :: map Linking log)
      | (Ok (Some linkedStore), store1, log) =>
          (Ok tt, store1,
           ELogin root :: EGetCliCommand :: map Linking log ++
           [ESuccess (success_body linkedStore) (success_nextSteps cliCommand)])
      end
  end.

End RunLink.

(** ** The [build] command: what follows the compilation

    [runBuild] first sets [NODE_ENV] (lines 290-292), compiles (lines
    294-327: calls that run concurrently under [Promise.all]), and then
    reports, strictly in sequence (lines 329-383).  The first and the
    last part are embedded here. *)

(** [process.env] *)
Abbreviation ProcessEnv := (gmap string string).

(** The property of the Remix config that the report reads. *)
Record RemixConfig := mkRemixConfig {
  serverMinify : option bool;
}.

(** The flags of [runBuild] that the report reads; both default to
    [false]. *)
Record BuildOptions := mkBuildOptions {
  sourcemap : option bool;
  disableRouteWarning : option bool;
}.

(** The paths that [getProjectPaths] returns and the report uses. *)
Record ProjectPaths := mkPaths {
  paths_root : string;
  buildPathClient : string;
  buildPathWorkerFile : string;
}.

Inductive BuildEvent :=
| BTimeEnd (label : string)
| BFileSize (path : string)
| BOutputSize (path : string) (bytes : N)
| BOutputWarn (message : string)
| BGlob (pattern : string)
| BRemoveFile (path : string)
| BGetPackageManager (root : string).

Definition is_remove (ev : BuildEvent) : bool :=
  match ev with BRemoveFile _ => true | _ => false end.

Definition is_warn (ev : BuildEvent) : bool :=
  match ev with BOutputWarn _ => true | _ => false end.

(** How a run of the command ends. *)
Inductive Completion :=
| Returned
| Exited (code : Z)
| Threw (e : Thrown).

(** The collaborators of the report: the file system, the route check
    ([lib/missing-routes.js], of which only the number of routes is
    used), the package manager detection and the path helpers. *)
Record BuildWorld := mkBuildWorld {
  fileSize_response : string -> Result N;
  glob_response : string -> Result (list string);
  removeFile_response : string -> Result unit;
  findMissingRoutes : RemixConfig -> list string;
  getPackageManager_response : string -> Result string;
  relativePath : string -> string -> string;
  joinPath : string -> string -> string;
}.

(** Value or thrown error, with the log of the calls. *)
Definition B (A : Type) : Type := Result A * list BuildEvent.

Definition bret {A} (a : A) : B A := (Ok a, []).

Definition bbind {A C} (m : B A) (k : A -> B C) : B C :=
  match m with
  | (Ok a, log1) => match k a with (r, log2) => (r, log1 ++ log2) end
  | (Err e, log1) => (Err e, log1)
  end.

Definition bcall {A} (ev : BuildEvent) (r : Result A) : B A := (r, [ev]).

Definition outputWarn (message : string) : B unit :=
  bcall (BOutputWarn message) (Ok tt).

Definition newline : string := String (Ascii.ascii_of_nat 10) EmptyString.

Definition LOG_WORKER_BUILT : string := "📦 Worker built".

Definition MINIFY_HINT : string :=
  " Minify your bundle by adding `serverMinify: true` to remix.config.js.".

Definition bundle_warning (remixConfig : RemixConfig) : string :=
  "🚨 Worker bundle exceeds 1 MB! This can delay your worker response." +:+
  (if default false (serverMinify remixConfig) then "" else MINIFY_HINT) +:+ newline.

Definition SOURCEMAP_WARNING : string :=
  "🚨 Sourcemaps are enabled in production! Use this only for testing." +:+ newline.

(** [`${n}`] for an array length. *)
Definition decimal (n : nat) : string :=
  DecimalString.NilEmpty.string_of_uint (Nat.to_uint n).

Definition routes_warning (missing : nat) (exec : string) : string :=
  "Heads up: Shopify stores have a number of standard routes that aren’t set up yet." +:+
  newline +:+
  "Some functionality and backlinks might not work as expected until these are created or redirects are set up." +:+
  newline +:+
  "This build is missing " +:+ decimal missing +:+ " route" +:+
  (if Nat.ltb 1 missing then "s" else "") +:+
  ". For more details, run `" +:+ exec +:+ " shopify hydrogen check routes`." +:+
  newline.

(** Lines 290-292. *)
Definition defaultNodeEnv (env : ProcessEnv) : ProcessEnv :=
  if negb (truthy (env !! "NODE_ENV")) then <["NODE_ENV" := "production"]> env else env.

(** [process.env.NODE_ENV !== 'development'] *)
Definition not_development (env : ProcessEnv) : bool :=
  match env !! "NODE_ENV" with
  | Some mode => negb (String.eqb mode "development")
  | None => true
  end.

(** [fileSize / (1024 * 1024)]: the quotient is exact, the divisor being a
    power of two. *)
Definition megabytes (bytes : N) : QArith_base.Q :=
  QArith_base.Qdiv (QArith_base.inject_Z (Z.of_N bytes))
                   (QArith_base.inject_Z (1024 * 1024)).

Section Build.

Variable bw : BuildWorld.

(** Lines 353-355: [for (const filepath of filepaths) await removeFile(filepath)]. *)
Fixpoint removeFiles (filepaths : list string) : B unit :=
  match filepaths with
  | [] => bret tt
  | filepath :: rest =>
      bbind (bcall (BRemoveFile filepath) (removeFile_response bw filepath))
            (fun _ => removeFiles rest)
  end.

(** Lines 349-361. *)
Definition handleSourcemaps (env : ProcessEnv) (paths : ProjectPaths) : B unit :=
  if truthy (env !! "HYDROGEN_ASSET_BASE_URL") then
    let pattern := joinPath bw (buildPathClient paths) "**/*.js.map" in
    bbind (bcall (BGlob pattern) (glob_response bw pattern)) removeFiles
  else outputWarn SOURCEMAP_WARNING.

(** Lines 329-362. *)
Definition reportBundle (env : ProcessEnv) (paths : ProjectPaths)
    (remixConfig : RemixConfig) (options : BuildOptions) : B unit :=
  if not_development env then
    bbind (bcall (BTimeEnd LOG_WORKER_BUILT) (Ok tt)) (fun _ =>
    bbind (bcall (BFileSize (buildPathWorkerFile paths))
                 (fileSize_response bw (buildPathWorkerFile paths))) (fun bytes =>
    let sizeMB := megabytes bytes in
    bbind (bcall (BOutputSize
                    (relativePath bw (paths_root paths) (buildPathWorkerFile paths))
                    bytes) (Ok tt)) (fun _ =>
    bbind (if QArith_base.Qle_bool (QArith_base.inject_Z 1) sizeMB
           then outputWarn (bundle_warning remixConfig)
           else bret tt) (fun _ =>
    if default false (sourcemap options)
    then handleSourcemaps env paths
    else bret tt))))
  else bret tt.

(** Lines 364-378. *)
Definition reportRoutes (paths : ProjectPaths) (remixConfig : RemixConfig)
    (options : BuildOptions) : B unit :=
  if negb (default false (disableRouteWarning options)) then
    let missingRoutes := findMissingRoutes bw remixConfig in
    if negb (Nat.eqb (length missingRoutes) 0) then
      bbind (bcall (BGetPackageManager (paths_root paths))
                   (getPackageManager_response bw (paths_root paths)))
            (fun packageManager =>
      let exec := if String.eqb packageManager "npm" then "npx" else packageManager in
      outputWarn (routes_warning (length missingRoutes) exec))
    else bret tt
  else bret tt.

(** The calls of lines 329-347. *)
Definition size_report (paths : ProjectPaths) (remixConfig : RemixConfig) (bytes : N)
  : list BuildEvent :=
  [BTimeEnd LOG_WORKER_BUILT;
   BFileSize (buildPathWorkerFile paths);
   BOutputSize (relativePath bw (paths_root paths) (buildPathWorkerFile paths)) bytes] ++
  (if (1048576 <=? bytes)%N then [BOutputWarn (bundle_warning remixConfig)] else []).

(** Lines 329-383: the report, then [process.exit(0)]. *)
Definition reportBuild (env : ProcessEnv) (paths : ProjectPaths)
    (remixConfig : RemixConfig) (options : BuildOptions)
  : Completion * list BuildEvent :=
  match bbind (reportBundle env paths remixConfig options)
              (fun _ => reportRoutes paths remixConfig options) with
  | (Ok _, log) => (Exited 0, log)
  | (Err e, log) => (Threw e, log)
  end.

End Build.

(** The first byte of a string. *)
Definition first_byte (s : string) : option Ascii.ascii :=
  match s with
  | EmptyString => None
  | String c _ => Some c
  end.

(** ** The server entry point of the demo store ([templates/demo-store/server.ts]) *)

(** *** The cart id kept in a cookie *)

(** [s.split(c)] for a separator of one character: never empty. *)
Fixpoint split_on (c : Ascii.ascii) (s : string) : list string :=
  match s with
  | EmptyString => [EmptyString]
  | String a rest =>
      if Ascii.eqb a c then EmptyString :: split_on c rest
      else
        match split_on c rest with
        | segment :: segments => String a segment :: segments
        | [] => [String a EmptyString]
        end
  end.

Definition slash : Ascii.ascii := Ascii.Ascii true true true true false true false false.

(** [`cart=${cartId.split('/').pop()}`]; [pop] of an empty array would be
    [undefined]. *)
Definition cart_cookie (cartId : string) : string :=
  "cart=" +:+
  match last (split_on slash cartId) with
  | Some segment => segment
  | None => "undefined"
  end.

(** [Headers]: the list of the (name, value) pairs, [append] adding at the
    end. *)
Abbreviation Headers := (list (string * string)).


Section Cookies.

(** [parse] of [worktop/cookie]: from the header to the cookies. *)
Variable parseCookie : string -> gmap string string.

(** [getCartId] of lines 53-64, from [request.headers.get('Cookie')]. *)
Definition getCartId (cookieHeader : option string) : option string :=
  let cookies :=
    parseCookie (if truthy cookieHeader then default "" cookieHeader else "") in
  if truthy (cookies !! "cart")
  then Some ("gid://shopify/Cart/" +:+ default "" (cookies !! "cart"))
  else None.

End Cookies.

(** Whether a string contains the character. *)
Fixpoint contains (c : Ascii.ascii) (s : string) : bool :=
  match s with
  | EmptyString => false
  | String a rest => Ascii.eqb a c || contains c rest
  end.

(** *** The fetch handler *)

Record Request := mkRequest {
  cookie : option string;
}.

Record Response := mkResponse {
  status : nat;
  body : string;
}.

(** The variables of [env] that the handler computes with. *)
Record WorkerEnv := mkWorkerEnv {
  SESSION_SECRET : option string;
  PUBLIC_STORE_DOMAIN : option string;
  PUBLIC_STOREFRONT_API_VERSION : option string;
}.

(** What [storefrontRedirect] does when called: it throws, or it returns
    a promise that resolves or rejects. *)
Inductive Redirect :=
| RedirectThrows (e : Thrown)
| RedirectPromise (outcome : Result Response).

Inductive ServerEvent :=
| SCachesOpen (name : string)
| SSessionInit (secrets : list string)
| SGetLocale
| SGetStorefrontHeaders
| SCreateStorefrontClient (storeDomain storefrontApiVersion : string)
| SCartQueries
| SCreateRequestHandler
| SHandleRequest
| SStorefrontRedirect (response : Response)
| SConsoleError (error : Thrown).

Definition is_console_error (ev : ServerEvent) : bool :=
  match ev with SConsoleError _ => true | _ => false end.

Definition is_redirect (ev : ServerEvent) : bool :=
  match ev with SStorefrontRedirect _ => true | _ => false end.

Definition is_handle (ev : ServerEvent) : bool :=
  match ev with SHandleRequest => true | _ => false end.

(** The collaborators of the handler.  When both promises of
    [Promise.all] reject, [cache_rejects_first] says which rejection is
    seen. *)
Record Worker := mkWorker {
  caches_open : string -> Result unit;
  session_init : list string -> Result unit;
  cache_rejects_first : bool;
  getLocaleFromRequest : Request -> Result unit;
  getStorefrontHeaders : Request -> Result unit;
  createStorefrontClient : string -> string -> Result unit;
  myCartQueries : Result unit;
  createRequestHandler : Result unit;
  handleRequest : Request -> Result Response;
  storefrontRedirect : Request -> Response -> Redirect;
}.

(** Value or thrown error, with the log of the calls. *)
Definition S (A : Type) : Type := Result A * list ServerEvent.

Definition sbind {A C} (m : S A) (k : A -> S C) : S C :=
  match m with
  | (Ok a, log1) => match k a with (r, log2) => (r, log1 ++ log2) end
  | (Err e, log1) => (Err e, log1)
  end.

Definition scall {A} (ev : ServerEvent) (r : Result A) : S A := (r, [ev]).

Definition SECRET_NOT_SET : string := "SESSION_SECRET environment variable is not set".

Definition UNEXPECTED_ERROR : Response :=
  mkResponse 500 "An unexpected error occurred".

(** [`https://${env.PUBLIC_STORE_DOMAIN}`] *)
Definition store_domain (env : WorkerEnv) : string :=
  "https://" +:+ default "undefined" (PUBLIC_STORE_DOMAIN env).

(** [env.PUBLIC_STOREFRONT_API_VERSION || '2023-01'] *)
Definition api_version (env : WorkerEnv) : string :=
  if truthy (PUBLIC_STOREFRONT_API_VERSION env)
  then default "" (PUBLIC_STOREFRONT_API_VERSION env)
  else "2023-01".

Section Fetch.

Variable wk : Worker.

(** [Promise.all([caches.open('hydrogen'), HydrogenSession.init(...)])] *)
Definition open_cache_and_session (secret : string) : S unit :=
  (match caches_open wk "hydrogen", session_init wk [secret] with
   | Ok _, Ok _ => Ok tt
   | Err e, Ok _ => Err e
   | Ok _, Err e => Err e
   | Err e1, Err e2 => Err (if cache_rejects_first wk then e1 else e2)
   end,
   [SCachesOpen "hydrogen"; SSessionInit [secret]]).

(** Lines 30-84: the cache and the session, the storefront client, the
    cart queries and the request handler. *)
Definition prepare (request : Request) (env : WorkerEnv) : S unit :=
  sbind (open_cache_and_session (default "" (SESSION_SECRET env))) (fun _ =>
  sbind (scall SGetLocale (getLocaleFromRequest wk request)) (fun _ =>
  sbind (scall SGetStorefrontHeaders (getStorefrontHeaders wk request)) (fun _ =>
  sbind (scall (SCreateStorefrontClient (store_domain env) (api_version env))
           (createStorefrontClient wk (store_domain env) (api_version env))) (fun _ =>
  sbind (scall SCartQueries (myCartQueries wk)) (fun _ =>
  scall SCreateRequestHandler (createRequestHandler wk)))))).

(** The body of the [try] block, lines 23-97.  The result is what the
    block returns: a response, or the promise of [storefrontRedirect],
    which is returned without being awaited. *)
Definition fetch_body (request : Request) (env : option WorkerEnv)
  : S (Response + Result Response) :=
  match env with
  | Some env' =>
      if negb (truthy (SESSION_SECRET env')) then (Err (OtherError SECRET_NOT_SET), [])
      else
        sbind (prepare request env') (fun _ =>
        sbind (scall SHandleRequest (handleRequest wk request)) (fun response =>
        if Nat.eqb (status response) 404 then
          match storefrontRedirect wk request response with
          | RedirectThrows e => (Err e, [SStorefrontRedirect response])
          | RedirectPromise outcome => (Ok (inr outcome), [SStorefrontRedirect response])
          end
        else (Ok (inl response), [])))
  | None => (Err (OtherError SECRET_NOT_SET), [])
  end.

(** [fetch], lines 17-103: what the returned promise settles to. *)
Definition fetch (request : Request) (env : option WorkerEnv)
  : Result Response * list ServerEvent :=
  match fetch_body request env with
  | (Ok (inl response), log) => (Ok response, log)
  | (Ok (inr outcome), log) => (outcome, log)
  | (Err error, log) => (Ok UNEXPECTED_ERROR, log ++ [SConsoleError error])
  end.

End Fetch.

(** ** More sample data *)

(** The user picks the second storefront of the list. *)
Definition picking : World unit :=
  sample_world true (Some "gid://shopify/HydrogenStorefront/2") created_with_job (Ok tt).

(** The Remote Storefront Directory is unreachable. *)
Definition unreachable : World unit :=
  {| confirm_answer := fun _ => true;
     select_answer := fun _ _ => None;
     text_answer := fun _ defaultValue => defaultValue;
     storefronts_response := fun _ => Err (OtherError "request failed");
     create_response := fun _ _ => created_with_job;
     job_response := fun _ _ => Ok tt;
     basename := fun _ => "my-cool-shop";
     titleize := fun _ => "My Cool Shop" |}.

Definition logged_in : Shell unit :=
  {| cwd := sample_root;
     login_response := fun _ => Ok (tt, sample_config);
     cli_command_response := Ok "npx shopify hydrogen";
     login_rejects_first := true |}.

Definition logged_out : Shell unit :=
  {| cwd := sample_root;
     login_response := fun _ => Err (AbortError "Not logged in");
     cli_command_response := Ok "npx shopify hydrogen";
     login_rejects_first := true |}.

Definition no_arguments : LinkStorefrontArguments := mkArguments None None None.

(** A build for Oxygen, and a local production build. *)
Definition oxygen_env : ProcessEnv :=
  <["NODE_ENV" := "production"]> (<["HYDROGEN_ASSET_BASE_URL" := "https://cdn.example"]> ∅).

Definition local_env : ProcessEnv := <["NODE_ENV" := "production"]> ∅.

Definition sample_paths : ProjectPaths :=
  mkPaths "/app" "/app/dist/client" "/app/dist/worker/index.js".

Definition sample_maps : list string :=
  ["/app/dist/client/a.js.map"; "/app/dist/client/b.js.map"; "/app/dist/client/c.js.map"].

(** A file system with a worker file of [size] bytes and three source
    maps, of which [locked] cannot be removed; one route is missing. *)
Definition sample_build (size : N) (locked : string) (packageManager : Result string)
  : BuildWorld :=
  {| fileSize_response := fun _ => Ok size;
     glob_response := fun _ => Ok sample_maps;
     removeFile_response :=
       fun f => if String.eqb f locked then Err (OtherError "EACCES") else Ok tt;
     findMissingRoutes := fun _ => ["/cart"];
     getPackageManager_response := fun _ => packageManager;
     relativePath := fun _ path => path;
     joinPath := fun a b => a +:+ "/" +:+ b |}.

Definition with_sourcemaps : BuildOptions := mkBuildOptions (Some true) None.

Definition sample_remix : RemixConfig := mkRemixConfig None.

(** A worker whose collaborators all succeed, up to the request handler
    and the redirect lookup. *)
Definition sample_worker (handled : Result Response) (redirect : Redirect) : Worker :=
  {| caches_open := fun _ => Ok tt;
     session_init := fun _ => Ok tt;
     cache_rejects_first := true;
     getLocaleFromRequest := fun _ => Ok tt;
     getStorefrontHeaders := fun _ => Ok tt;
     createStorefrontClient := fun _ _ => Ok tt;
     myCartQueries := Ok tt;
     createRequestHandler := Ok tt;
     handleRequest := fun _ => handled;
     storefrontRedirect := fun _ _ => redirect |}.

Definition sample_env : WorkerEnv :=
  mkWorkerEnv (Some "s3cr3t") (Some "snow.myshopify.com") None.

Definition sample_request : Request := mkRequest (Some "cart=c1-abc").

Definition not_found : Response := mkResponse 404 "Not Found".

Definition home_page : Response := mkResponse 200 "<html>".


(** ** Truthiness *)

Lemma truthy_Some (v : option string) :
  truthy v = true <-> exists s, v = Some s /\ s <> "".
Proof.
  destruct v as [s|]; cbn.
  - rewrite negb_true_iff, String.eqb_neq. split.
    + intros H. exists s. auto.
    + intros (s' & [= <-] & H). exact H.
  - split; [discriminate | intros (s & [=] & _)].
Qed.

Lemma truthy_nonempty (s : string) : s <> "" -> truthy (Some s) = true.
Proof. intros H. apply truthy_Some. eauto. Qed.

(** ** Results about the creation pipeline *)

Section Pipeline.

Context {Session : Type}.
Variable w : World Session.

(** The four ways through the task list. *)

Lemma creationTasks_creator_throws {St} session name (s : St) l e :
  create_response w session name = Err e ->
  creationTasks w session name (s, l) =
    (Err e, (s, l), [ETask CREATING_STOREFRONT; ECreateStorefront name]).
Proof.
  intros Hc. unfold creationTasks, renderTasks, bind, get, call; cbn.
  rewrite Hc. reflexivity.
Qed.

Lemma creationTasks_no_job {St} session name (s : St) l r :
  create_response w session name = Ok r ->
  truthy (created_jobId r) = false ->
  creationTasks w session name (s, l) =
    (Ok tt, (s, mkLocals (created_storefront r) (created_jobId r)),
     [ETask CREATING_STOREFRONT; ECreateStorefront name]).
Proof.
  intros Hc Hj. unfold creationTasks, renderTasks, bind, get, call; cbn.
  rewrite Hc; cbn. rewrite Hj. reflexivity.
Qed.

Lemma creationTasks_job_done {St} session name (s : St) l r :
  create_response w session name = Ok r ->
  truthy (created_jobId r) = true ->
  job_response w session (created_jobId r) = Ok tt ->
  creationTasks w session name (s, l) =
    (Ok tt, (s, mkLocals (created_storefront r) (created_jobId r)),
     [ETask CREATING_STOREFRONT; ECreateStorefront name;
      ETask CREATING_API_TOKENS; EWaitForJob (created_jobId r)]).
Proof.
  intros Hc Hj Hw. unfold creationTasks, renderTasks, bind, get, call, try_catch; cbn.
  rewrite Hc; cbn. rewrite Hj; cbn. rewrite Hw. reflexivity.
Qed.

Lemma creationTasks_job_fails {St} session name (s : St) l r e :
  create_response w session name = Ok r ->
  truthy (created_jobId r) = true ->
  job_response w session (created_jobId r) = Err e ->
  creationTasks w session name (s, l) =
    (Ok tt, (s, mkLocals None (created_jobId r)),
     [ETask CREATING_STOREFRONT; ECreateStorefront name;
      ETask CREATING_API_TOKENS; EWaitForJob (created_jobId r)]).
Proof.
  intros Hc Hj Hw. unfold creationTasks, renderTasks, bind, get, call, try_catch; cbn.
  rewrite Hc; cbn. rewrite Hj; cbn. rewrite Hw. reflexivity.
Qed.

(** [createNewStorefront] in terms of its task list. *)
Lemma createNewStorefront_unfold {St} root session (s : St) :
  createNewStorefront w root session s =
    match creationTasks w session (project_name w root) (s, mkLocals None None) with
    | (Ok _, (s1, l), log) =>
        (match storefront_var l with
         | Some sf => Ok sf
         | None => Err (AbortError UNKNOWN_ERROR)
         end, s1,
         ETextPrompt "New storefront name" (titleize w (basename w root)) :: log)
    | (Err e, (s1, _), log) =>
        (Err e, s1,
         ETextPrompt "New storefront name" (titleize w (basename w root)) :: log)
    end.
Proof.
  unfold createNewStorefront, project_name, renderTextPrompt, with_locals.
  unfold bind at 1. unfold call at 1.
  unfold bind at 1.
  destruct (creationTasks _ _ _ _) as [[[u|e] [s1 l]] log]; cbn.
  - destruct (storefront_var l); cbn; rewrite app_nil_r; reflexivity.
  - reflexivity.
Qed.

Lemma createNewStorefront_outcome {St} root session (s : St) :
  createNewStorefront w root session s =
    (fst (creation_outcome w root session), s, snd (creation_outcome w root session)).
Proof.
  rewrite createNewStorefront_unfold. unfold creation_outcome.
  destruct (create_response w session (project_name w root)) as [r|e] eqn:Hc.
  - destruct (truthy (created_jobId r)) eqn:Hj.
    + destruct (job_response w session (created_jobId r)) as [[]|e] eqn:Hw.
      * rewrite (creationTasks_job_done _ _ _ _ r Hc Hj Hw). reflexivity.
      * rewrite (creationTasks_job_fails _ _ _ _ r e Hc Hj Hw). reflexivity.
    + rewrite (creationTasks_no_job _ _ _ _ r Hc Hj). reflexivity.
  - rewrite (creationTasks_creator_throws _ _ _ _ e Hc). reflexivity.
Qed.

(** The pipeline never touches the Local Config Store. *)
Lemma createNewStorefront_state {St} root session (s : St) :
  state_of (createNewStorefront w root session s) = s.
Proof. rewrite createNewStorefront_outcome. reflexivity. Qed.

Lemma createNewStorefront_no_write {St} root session (s : St) :
  List.filter is_write (log_of (createNewStorefront w root session s)) = [].
Proof.
  rewrite createNewStorefront_outcome. unfold log_of, creation_outcome; cbn.
  destruct (create_response _ _ _) as [r|e]; [destruct (truthy _)|]; reflexivity.
Qed.

End Pipeline.

(** ** Properties of [createNewStorefront] *)

Section Creation.

Context {Session : Type}.
Variable w : World Session.

(** C2, as amended: when the creator succeeds and returns no [jobId], the
    "Creating API tokens" task is skipped and the job waiter is never
    called; the final check then returns the storefront that the creator
    returned, and raises the unknown error only when the creator returned
    no storefront either. *)
Theorem createNewStorefront_without_job {St} root session (s : St) r :
  create_response w session (project_name w root) = Ok r ->
  created_jobId r = None ->
  List.filter is_wait (log_of (createNewStorefront w root session s)) = [] /\
  List.filter (runs_task CREATING_API_TOKENS)
         (log_of (createNewStorefront w root session s)) = [] /\
  result_of (createNewStorefront w root session s) =
    match created_storefront r with
    | Some sf => Ok sf
    | None => Err (AbortError UNKNOWN_ERROR)
    end.
Proof.
  intros Hc Hj. rewrite createNewStorefront_outcome.
  unfold creation_outcome, result_of, log_of; cbn.
  rewrite Hc, Hj; cbn. auto.
Qed.

(** C3: when the creator succeeds with a [jobId] and [waitForJob] throws,
    the variable [storefront] is cleared by the task and
    [createNewStorefront] raises the generic unknown error, whatever the
    waiter threw. *)
Theorem createNewStorefront_waiter_throws {St} root session (s : St) r jobId e :
  create_response w session (project_name w root) = Ok r ->
  created_jobId r = Some jobId ->
  jobId <> "" ->
  job_response w session (Some jobId) = Err e ->
  In (EWaitForJob (Some jobId)) (log_of (createNewStorefront w root session s)) /\
  storefront_var
    (snd (state_of (creationTasks w session (project_name w root)
                      (s, mkLocals None None)))) = None /\
  result_of (createNewStorefront w root session s) = Err (AbortError UNKNOWN_ERROR) /\
  (e <> AbortError UNKNOWN_ERROR ->
   result_of (createNewStorefront w root session s) <> Err e).
Proof.
  intros Hc Hj Hne Hw.
  assert (Ht : truthy (created_jobId r) = true)
    by (rewrite Hj; apply truthy_nonempty, Hne).
  rewrite <- Hj in Hw.
  rewrite (creationTasks_job_fails w session _ s _ r e Hc Ht Hw).
  rewrite createNewStorefront_outcome.
  unfold creation_outcome, result_of, log_of; cbn.
  rewrite Hc, Ht, Hw; cbn. rewrite Hj.
  repeat split; [tauto | congruence].
Qed.

(** C6: when the creator call itself throws, the "Creating API tokens"
    task does not run (no task entry, no call to the waiter; its skip
    predicate holds in the state the first task leaves behind) and
    [createNewStorefront] fails with the creator's own error. *)
Theorem createNewStorefront_creator_throws {St} root session (s : St) e :
  create_response w session (project_name w root) = Err e ->
  result_of (createNewStorefront w root session s) = Err e /\
  List.filter (runs_task CREATING_API_TOKENS)
         (log_of (createNewStorefront w root session s)) = [] /\
  List.filter is_wait (log_of (createNewStorefront w root session s)) = [] /\
  (exists p, skip (creatingApiTokens (St := St) w session) = Some p /\
     p (state_of (creationTasks w session (project_name w root)
                    (s, mkLocals None None))) = true).
Proof.
  intros Hc.
  rewrite (creationTasks_creator_throws w session _ s _ e Hc).
  rewrite createNewStorefront_outcome.
  unfold creation_outcome, result_of, log_of; cbn.
  rewrite Hc; cbn. repeat split. eexists. split; reflexivity.
Qed.

(** The "Creating API tokens" entry alone: from any values of the
    captured variables, its body runs only if [jobId] is defined. *)
Lemma creatingApiTokens_runs_with_jobId {St} session (s : St) l :
  In (ETask CREATING_API_TOKENS)
     (log_of (renderTasks [creatingApiTokens w session] (s, l))) ->
  truthy (jobId_var l) = true.
Proof.
  unfold renderTasks, bind, get, call, try_catch, log_of; cbn.
  destruct (truthy (jobId_var l)); cbn; [reflexivity | tauto].
Qed.

(** C9: whenever the body of the "Creating API tokens" task runs inside
    [createNewStorefront], the creator has returned a [jobId], and every
    call of [waitForJob] receives a defined, non-empty [jobId]. *)
Theorem waitForJob_jobId_defined {St} root session (s : St) :
  (In (ETask CREATING_API_TOKENS) (log_of (createNewStorefront w root session s)) ->
   exists r jobId,
     create_response w session (project_name w root) = Ok r /\
     created_jobId r = Some jobId /\ jobId <> "") /\
  (forall j,
     In (EWaitForJob j) (log_of (createNewStorefront w root session s)) ->
     exists jobId, j = Some jobId /\ jobId <> "").
Proof.
  rewrite createNewStorefront_outcome.
  unfold creation_outcome, log_of; cbn.
  destruct (create_response w session (project_name w root)) as [r|e] eqn:Hc.
  - destruct (truthy (created_jobId r)) eqn:Hj; cbn.
    + apply truthy_Some in Hj as (jobId & Hj & Hne). split.
      * intros _. exists r, jobId. auto.
      * intros j [H|[H|[H|[H|[H|[]]]]]]; try discriminate.
        injection H as <-. eauto.
    + split.
      * intros [H|[H|[H|[]]]]; discriminate.
      * intros j [H|[H|[H|[]]]]; discriminate.
  - cbn. split.
    + intros [H|[H|[H|[]]]]; discriminate.
    + intros j [H|[H|[H|[]]]]; discriminate.
Qed.

End Creation.

(** ** Properties of [linkStorefront] *)

Section Linking.

Context {Session : Type}.
Variable w : World Session.

(** Line 96: without a shop, nothing happens but the abort. *)
Lemma linkStorefront_aborts root session config options (store : Store) :
  truthy (shop config) = false ->
  linkStorefront w root session config options store =
    (Err (AbortError NO_SHOP), store, []).
Proof. intros Hs. unfold linkStorefront. rewrite Hs. reflexivity. Qed.

(** C5: with a config whose [shop] is not set (undefined, or the empty
    string), [linkStorefront] fails with the abort error "No shop found
    in local config, login first." without having called any external
    collaborator: no network call, no prompt, no write. *)
Theorem linkStorefront_no_shop root session config options (store : Store) :
  truthy (shop config) = false ->
  result_of (linkStorefront w root session config options store) =
    Err (AbortError NO_SHOP) /\
  log_of (linkStorefront w root session config options store) = [] /\
  List.filter is_network (log_of (linkStorefront w root session config options store)) = [] /\
  state_of (linkStorefront w root session config options store) = store.
Proof.
  intros Hs. rewrite (linkStorefront_aborts _ _ _ _ _ Hs). cbn. auto.
Qed.

(** C4: when [config.shop] is set, a storefront is already linked (the
    truthiness tests of lines 96 and 100),
    [force] is false and the user declines the overwrite confirmation,
    the result is [undefined], the Local Config Store is unchanged and
    nothing but the confirmation prompt happened. *)
Theorem linkStorefront_declined root session config options (store : Store)
    linked :
  truthy (shop config) = true ->
  storefront config = Some linked -> linked_id linked <> "" ->
  default false (force options) = false ->
  confirm_answer w (overwrite_message linked) = false ->
  result_of (linkStorefront w root session config options store) = Ok None /\
  state_of (linkStorefront w root session config options store) = store /\
  writes (log_of (linkStorefront w root session config options store)) = 0 /\
  log_of (linkStorefront w root session config options store) =
    [EConfirm (overwrite_message linked)].
Proof.
  intros Hs Hl Hid Hf Hc. unfold linkStorefront.
  rewrite Hs; cbn.
  unfold linked_id_of. rewrite Hl, (truthy_nonempty _ Hid), Hf; cbn.
  unfold bind, renderConfirmationPrompt, call. rewrite Hc. cbn. auto.
Qed.

(** When the shop is set and the overwrite is not declined, the call is
    [resolve], after the confirmation prompt if there was one. *)
Lemma linkStorefront_proceeds root session config options (store : Store) :
  truthy (shop config) = true ->
  overwrite_declined w config options = false ->
  linkStorefront w root session config options store =
    (result_of (resolve w root session config (flagStorefront options)
                  (cliCommand options) store),
     state_of (resolve w root session config (flagStorefront options)
                 (cliCommand options) store),
     confirm_log config options ++
     log_of (resolve w root session config (flagStorefront options)
               (cliCommand options) store)).
Proof.
  intros Hs Hd. unfold linkStorefront, overwrite_declined, confirm_log in *.
  rewrite Hs.
  destruct (resolve w root session config (flagStorefront options)
              (cliCommand options) store) as [[r s] l] eqn:Hrest.
  destruct (truthy (linked_id_of config) && negb (default false (force options)));
    cbn in *.
  - apply negb_false_iff in Hd.
    unfold renderConfirmationPrompt, call, bind. rewrite Hd; cbn.
    rewrite Hrest. reflexivity.
  - exact Hrest.
Qed.

Lemma confirm_log_no_write config options :
  List.filter is_write (confirm_log config options) = [].
Proof. unfold confirm_log. destruct (_ && _); reflexivity. Qed.

Lemma confirm_log_no_warning config options :
  List.filter is_warning (confirm_log config options) = [].
Proof. unfold confirm_log. destruct (_ && _); reflexivity. Qed.

(** The explicit-name branch. *)
Lemma resolve_flag_found root session config flag cliCommand (store : Store)
    storefronts sf :
  storefronts_response w session = Ok storefronts ->
  flag <> "" ->
  find (fun x => String.eqb (title x) flag) storefronts = Some sf ->
  resolve w root session config (Some flag) cliCommand store =
    (Ok (Some sf), <[root := sf]> store, [EGetStorefronts; ESetStorefront root sf]).
Proof.
  intros Hr Hne Hf. unfold resolve, bind at 1, getStorefronts, call.
  rewrite Hr, (truthy_nonempty _ Hne); cbn. rewrite Hf. reflexivity.
Qed.

Lemma resolve_flag_missing root session config flag cliCommand (store : Store)
    storefronts :
  storefronts_response w session = Ok storefronts ->
  flag <> "" ->
  find (fun x => String.eqb (title x) flag) storefronts = None ->
  resolve w root session config (Some flag) cliCommand store =
    (Ok None, store,
     [EGetStorefronts;
      EWarning ("Couldn't find " +:+ flag) (not_found_body flag config cliCommand)]).
Proof.
  intros Hr Hne Hf. unfold resolve, bind at 1, getStorefronts, call.
  rewrite Hr, (truthy_nonempty _ Hne); cbn. rewrite Hf. reflexivity.
Qed.

(** [Array.prototype.find] with the title test returns the first
    storefront of the list with that title. *)
Lemma find_first_titled flag storefronts sf :
  find (fun x => String.eqb (title x) flag) storefronts = Some sf <->
  first_titled flag storefronts sf.
Proof.
  unfold first_titled. induction storefronts as [|x l IH]; cbn.
  - split; [discriminate|]. intros ([|] & after & H & _); discriminate.
  - destruct (String.eqb (title x) flag) eqn:E.
    + apply String.eqb_eq in E. split.
      * intros [= <-]. exists [], l. cbn. tauto.
      * intros ([|y before] & after & H & Ht & Hb); cbn in H.
        -- congruence.
        -- injection H as <- ->. exfalso. apply (Hb x); cbn; auto.
    + apply String.eqb_neq in E. rewrite IH. split.
      * intros (before & after & -> & Ht & Hb). exists (x :: before), after.
        cbn. repeat split; auto. intros other [<-|Hin]; auto.
      * intros ([|y before] & after & H & Ht & Hb); cbn in H.
        -- congruence.
        -- injection H as <- ->. exists before, after. repeat split; auto.
           intros other Hin. apply Hb. cbn. auto.
Qed.

Lemma find_title_exists flag storefronts :
  (exists sf, In sf storefronts /\ title sf = flag) ->
  exists sf, find (fun x => String.eqb (title x) flag) storefronts = Some sf /\
             In sf storefronts /\ title sf = flag.
Proof.
  intros (sf & Hin & Ht).
  destruct (find (fun x => String.eqb (title x) flag) storefronts) as [found|] eqn:Hf.
  - exists found. split; [reflexivity|].
    apply find_some in Hf as [Hin' E]. apply String.eqb_eq in E. auto.
  - exfalso. apply (find_none _ _ Hf) in Hin. apply String.eqb_neq in Hin. auto.
Qed.

Lemma find_title_none flag storefronts :
  (forall sf, In sf storefronts -> title sf <> flag) ->
  find (fun x => String.eqb (title x) flag) storefronts = None.
Proof.
  intros H.
  destruct (find (fun x => String.eqb (title x) flag) storefronts) as [found|] eqn:Hf;
    [|reflexivity].
  apply find_some in Hf as [Hin E]. apply String.eqb_eq in E.
  exfalso. exact (H _ Hin E).
Qed.

End Linking.

Section Resolving.

Context {Session : Type}.
Variable w : World Session.

Lemma persist_run root selected (store : Store) :
  persist root selected store =
    (Ok selected,
     match selected with Some sf => <[root := sf]> store | None => store end,
     match selected with Some sf => [ESetStorefront root sf] | None => [] end).
Proof. destruct selected; reflexivity. Qed.

(** Lines 110-164, branch by branch. *)
Lemma resolve_run root session config flag cliCommand (store : Store) :
  resolve w root session config flag cliCommand store =
    match storefronts_response w session with
    | Err e => (Err e, store, [EGetStorefronts])
    | Ok storefronts =>
        let select :=
          ESelect "Select a Hydrogen storefront to link" (select_choices storefronts) in
        let picked :=
          select_answer w "Select a Hydrogen storefront to link"
            (select_choices storefronts) in
        if truthy flag then
          match find (fun x => String.eqb (title x) (default "" flag)) storefronts with
          | Some sf =>
              (Ok (Some sf), <[root := sf]> store,
               [EGetStorefronts; ESetStorefront root sf])
          | None =>
              (Ok None, store,
               [EGetStorefronts;
                EWarning ("Couldn't find " +:+ default "" flag)
                  (not_found_body (default "" flag) config cliCommand)])
          end
        else if truthy picked then
          match find (fun x => String.eqb (id x) (default "" picked)) storefronts with
          | Some sf =>
              (Ok (Some sf), <[root := sf]> store,
               [EGetStorefronts; select; ESetStorefront root sf])
          | None => (Ok None, store, [EGetStorefronts; select])
          end
        else
          match fst (creation_outcome w root session) with
          | Ok sf =>
              (Ok (Some sf), <[root := sf]> store,
               EGetStorefronts :: select ::
               snd (creation_outcome w root session) ++ [ESetStorefront root sf])
          | Err e =>
              (Err e, store,
               EGetStorefronts :: select :: snd (creation_outcome w root session))
          end
    end.
Proof.
  unfold resolve, getStorefronts, call. unfold bind at 1.
  destruct (storefronts_response w session) as [storefronts|e]; [|reflexivity].
  destruct (truthy flag).
  - destruct (find _ storefronts) as [sf|]; reflexivity.
  - unfold renderSelectPrompt, call. unfold bind at 1. unfold bind at 1.
    destruct (truthy (select_answer w _ _)).
    + cbn. rewrite persist_run.
      destruct (find _ storefronts) as [sf|]; reflexivity.
    + unfold bind at 1. rewrite createNewStorefront_outcome.
      destruct (fst (creation_outcome w root session)) as [sf|e]; cbn.
      * rewrite app_nil_r. reflexivity.
      * reflexivity.
Qed.

Lemma creation_outcome_no_write root session :
  List.filter is_write (snd (creation_outcome w root session)) = [].
Proof.
  unfold creation_outcome.
  destruct (create_response _ _ _) as [r|e]; [destruct (truthy _)|]; reflexivity.
Qed.

Lemma no_write_not_In log root sf :
  List.filter is_write log = [] -> ~ In (ESetStorefront root sf) log.
Proof.
  intros Hf Hin.
  assert (H : In (ESetStorefront root sf) (List.filter is_write log))
    by (apply List.filter_In; split; [exact Hin | reflexivity]).
  rewrite Hf in H. exact H.
Qed.

(** What [resolve] writes. *)
Lemma resolve_writes root session config options (store : Store) :
  let out := resolve w root session config (flagStorefront options)
               (cliCommand options) store in
  writes (log_of out) <= 1 /\
  (forall r sf,
     In (ESetStorefront r sf) (log_of out) ->
     r = root /\ Resolved w root session options store sf /\
     result_of out = Ok (Some sf) /\ state_of out = <[root := sf]> store) /\
  ((forall sf, result_of out <> Ok (Some sf)) ->
   writes (log_of out) = 0 /\ state_of out = store).
Proof.
  intros out. subst out. rewrite resolve_run. unfold Resolved.
  destruct (storefronts_response w session) as [storefronts|e] eqn:Hr; cbn zeta.
  2:{ split; [cbn; lia|]. split; [|auto].
      intros r sf [H|[]]. discriminate. }
  destruct (truthy (flagStorefront options)) eqn:Hflag.
  { destruct (find _ storefronts) as [found|] eqn:Hf.
    - split; [cbn; lia|]. split.
      + intros r sf [H|[H|[]]]; [discriminate|]. injection H as <- <-.
        split; [reflexivity|]. split; [|auto].
        exists storefronts. split; [reflexivity|]. left. auto.
      + intros H. exfalso. exact (H found eq_refl).
    - split; [cbn; lia|]. split; [|auto].
      intros r sf [H|[H|[]]]; discriminate. }
  destruct (truthy (select_answer w _ _)) eqn:Hpick.
  { destruct (find _ storefronts) as [found|] eqn:Hf.
    - split; [cbn; lia|]. split.
      + intros r sf [H|[H|[H|[]]]]; try discriminate. injection H as <- <-.
        split; [reflexivity|]. split; [|auto].
        exists storefronts. split; [reflexivity|]. right. left. auto.
      + intros H. exfalso. exact (H found eq_refl).
    - split; [cbn; lia|]. split; [|auto].
      intros r sf [H|[H|[]]]; discriminate. }
  pose proof (creation_outcome_no_write root session) as Hnw.
  destruct (fst (creation_outcome w root session)) as [created|e] eqn:Hc;
    unfold writes; cbn [log_of result_of state_of fst snd List.filter is_write].
  - rewrite List.filter_app, Hnw. split; [cbn; lia|]. split.
    + intros r sf [H|[H|H]]; try discriminate.
      apply in_app_or in H as [H|[H|[]]].
      * exfalso. exact (no_write_not_In _ _ _ Hnw H).
      * injection H as <- <-.
        split; [reflexivity|]. split; [|auto].
        exists storefronts. split; [reflexivity|]. right. right.
        rewrite createNewStorefront_outcome. auto.
    + intros H. exfalso. exact (H created eq_refl).
  - rewrite Hnw. split; [cbn; lia|]. split; [|auto].
    intros r sf [H|[H|H]]; try discriminate.
    exfalso. exact (no_write_not_In _ _ _ Hnw H).
Qed.

End Resolving.

(** ** The properties of the linking workflow *)

Section Workflow.

Context {Session : Type}.
Variable w : World Session.

Lemma linkStorefront_declines root session config options (store : Store) :
  truthy (shop config) = true ->
  overwrite_declined w config options = true ->
  linkStorefront w root session config options store =
    (Ok None, store, confirm_log config options).
Proof.
  intros Hs Hd. unfold linkStorefront, overwrite_declined, confirm_log in *.
  rewrite Hs.
  apply andb_true_iff in Hd as [Hd Hc]. rewrite Hd.
  apply negb_true_iff in Hc.
  unfold renderConfirmationPrompt, call, bind. cbn. rewrite Hc. reflexivity.
Qed.

(** An empty [flagStorefront] is no flag: line 114 tests the string for
    truthiness, so the call takes the interactive branch. *)
Lemma linkStorefront_empty_flag root session config force cliCommand (store : Store) :
  linkStorefront w root session config (mkOptions force (Some "") cliCommand) store =
  linkStorefront w root session config (mkOptions force None cliCommand) store.
Proof. reflexivity. Qed.

(** C1: with [flagStorefront] provided and a shop set in the config (both
    in the sense of the tests of lines 114 and 96, which are tests of
    truthiness: a defined, non-empty string) and no declined overwrite:
    if the fetched list contains
    a storefront whose title is exactly [flagStorefront], such a
    storefront is written to the Local Config Store (the only write) and
    returned; if no title is equal to [flagStorefront], a warning is
    emitted, [undefined] is returned and nothing is written. *)
Theorem linkStorefront_explicit_name root session config options (store : Store)
    flag storefronts :
  truthy (shop config) = true ->
  flagStorefront options = Some flag -> flag <> "" ->
  overwrite_declined w config options = false ->
  storefronts_response w session = Ok storefronts ->
  ((exists sf, In sf storefronts /\ title sf = flag) ->
   exists sf,
     In sf storefronts /\ title sf = flag /\
     result_of (linkStorefront w root session config options store) = Ok (Some sf) /\
     state_of (linkStorefront w root session config options store) =
       <[root := sf]> store /\
     List.filter is_write (log_of (linkStorefront w root session config options store)) =
       [ESetStorefront root sf]) /\
  ((forall sf, In sf storefronts -> title sf <> flag) ->
   result_of (linkStorefront w root session config options store) = Ok None /\
   state_of (linkStorefront w root session config options store) = store /\
   writes (log_of (linkStorefront w root session config options store)) = 0 /\
   List.filter is_warning (log_of (linkStorefront w root session config options store)) =
     [EWarning ("Couldn't find " +:+ flag)
        (not_found_body flag config (cliCommand options))]).
Proof.
  intros Ht Hflag Hfne Hd Hr.
  rewrite (linkStorefront_proceeds w _ _ _ _ _ Ht Hd), Hflag.
  unfold result_of, state_of, log_of, writes; cbn [fst snd]. split.
  - intros Hex. apply find_title_exists in Hex as (sf & Hf & Hin & Htitle).
    exists sf. rewrite (resolve_flag_found w _ _ _ _ _ _ _ _ Hr Hfne Hf).
    cbn [fst snd]. rewrite List.filter_app, confirm_log_no_write. auto.
  - intros Hnone. apply find_title_none in Hnone.
    rewrite (resolve_flag_missing w _ _ _ _ _ _ _ Hr Hfne Hnone).
    cbn [fst snd]. rewrite !List.filter_app, confirm_log_no_write, confirm_log_no_warning.
    auto.
Qed.

(** C10: in the explicit-name branch (shop set, [flagStorefront] a
    non-empty string, overwrite not declined), when several storefronts
    of the fetched list have the title [flagStorefront],
    [linkStorefront] selects, persists and returns the
    first of them in the order of the list, whatever follows it; it
    neither fails nor prompts for a selection. *)
Theorem linkStorefront_first_match root session config options (store : Store)
    flag before sf after :
  truthy (shop config) = true ->
  flagStorefront options = Some flag -> flag <> "" ->
  overwrite_declined w config options = false ->
  storefronts_response w session = Ok (before ++ sf :: after) ->
  title sf = flag ->
  (forall other, In other before -> title other <> flag) ->
  linkStorefront w root session config options store =
    (Ok (Some sf), <[root := sf]> store,
     confirm_log config options ++ [EGetStorefronts; ESetStorefront root sf]).
Proof.
  intros Ht Hflag Hfne Hd Hr Htitle Hbefore.
  assert (Hf : find (fun x => String.eqb (title x) flag) (before ++ sf :: after) = Some sf).
  { apply find_first_titled. exists before, after. auto. }
  rewrite (linkStorefront_proceeds w _ _ _ _ _ Ht Hd), Hflag.
  rewrite (resolve_flag_found w _ _ _ _ _ _ _ _ Hr Hfne Hf). reflexivity.
Qed.

(** C7: every call of [linkStorefront] writes the Local Config Store at
    most once; a write stores, under the project root, a storefront that
    was fully resolved (the match of the flag, the user's pick or the
    storefront returned by the creation pipeline) and that the call then
    returns; a call that returns [undefined] or fails has written
    nothing. *)
Theorem linkStorefront_at_most_one_write root session config options (store : Store) :
  writes (log_of (linkStorefront w root session config options store)) <= 1 /\
  (forall r sf,
     In (ESetStorefront r sf)
        (log_of (linkStorefront w root session config options store)) ->
     r = root /\ Resolved w root session options store sf /\
     result_of (linkStorefront w root session config options store) = Ok (Some sf) /\
     state_of (linkStorefront w root session config options store) =
       <[root := sf]> store) /\
  ((forall sf,
      result_of (linkStorefront w root session config options store) <> Ok (Some sf)) ->
   writes (log_of (linkStorefront w root session config options store)) = 0 /\
   state_of (linkStorefront w root session config options store) = store).
Proof.
  destruct (truthy (shop config)) eqn:Hs.
  2:{ rewrite (linkStorefront_aborts w _ _ _ _ _ Hs).
      split; [cbn; lia|]. split; [intros r sf []|auto]. }
  destruct (overwrite_declined w config options) eqn:Hd.
  { rewrite (linkStorefront_declines _ _ _ _ _ Hs Hd).
    unfold writes, log_of, state_of; cbn [fst snd].
    rewrite confirm_log_no_write. split; [cbn; lia|]. split; [|auto].
    intros r sf H. exfalso.
    exact (no_write_not_In _ _ _ (confirm_log_no_write config options) H). }
  rewrite (linkStorefront_proceeds w _ _ _ _ _ Hs Hd).
  destruct (resolve_writes w root session config options store) as (Hn & Hw & Hz).
  unfold writes, log_of, state_of, result_of in *; cbn [fst snd] in *.
  rewrite List.filter_app, confirm_log_no_write. cbn [app].
  split; [exact Hn|]. split; [|exact Hz].
  intros r sf H. apply in_app_or in H as [H|H].
  - exfalso. exact (no_write_not_In _ _ _ (confirm_log_no_write config options) H).
  - exact (Hw r sf H).
Qed.

End Workflow.

Section Idempotence.

Context {Session : Type}.
Variables first_world second_world : World Session.

(** C8: two calls of [linkStorefront] with [force = true] and the same
    (non-empty) [flagStorefront], the second starting from the store left by the
    first, resolve to the same storefront when it is the match of the
    flag in both fetched lists: both calls return it, both persist it
    under the project root, and the second call leaves the store as the
    first left it. *)
Theorem linkStorefront_relink_idempotent root session config config' options
    (store : Store) flag storefronts storefronts' sf :
  truthy (shop config) = true ->
  truthy (shop config') = true ->
  force options = Some true ->
  flagStorefront options = Some flag -> flag <> "" ->
  storefronts_response first_world session = Ok storefronts ->
  storefronts_response second_world session = Ok storefronts' ->
  first_titled flag storefronts sf ->
  first_titled flag storefronts' sf ->
  let first := linkStorefront first_world root session config options store in
  let second :=
    linkStorefront second_world root session config' options (state_of first) in
  result_of first = Ok (Some sf) /\
  result_of second = Ok (Some sf) /\
  List.filter is_write (log_of first) = [ESetStorefront root sf] /\
  List.filter is_write (log_of second) = [ESetStorefront root sf] /\
  state_of first !! root = Some sf /\
  state_of second !! root = Some sf /\
  state_of second = state_of first.
Proof.
  intros Hs Hs' Hforce Hflag Hfne Hr Hr' Hf Hf' first second.
  apply find_first_titled in Hf, Hf'.
  assert (Hd : forall (w : World Session) c, overwrite_declined w c options = false).
  { intros w c. unfold overwrite_declined. rewrite Hforce. cbn.
    rewrite andb_false_r. reflexivity. }
  assert (Hl : forall c, confirm_log c options = []).
  { intros c. unfold confirm_log. rewrite Hforce. cbn.
    rewrite andb_false_r. reflexivity. }
  subst first second.
  rewrite (linkStorefront_proceeds first_world _ _ _ _ _ Hs (Hd _ _)), Hflag.
  rewrite (resolve_flag_found first_world _ _ _ _ _ _ _ _ Hr Hfne Hf).
  unfold state_of at 1; cbn [fst snd].
  rewrite (linkStorefront_proceeds second_world _ _ _ _ _ Hs' (Hd _ _)), Hflag.
  rewrite (resolve_flag_found second_world _ _ _ _ _ _ _ _ Hr' Hfne Hf').
  unfold result_of, state_of, log_of; cbn [fst snd]. rewrite !Hl. cbn.
  rewrite insert_insert_eq, lookup_insert_eq. auto 10.
Qed.

End Idempotence.

(** ** The properties at the sample data *)






Lemma nonempty_string (s : string) : String.eqb s "" = false -> s <> "".
Proof. apply String.eqb_neq. Qed.

(** The title is compared exactly: "snow shop" does not match "Snow Shop". *)
Lemma linkStorefront_explicit_name_witness :
  (exists sf,
     In sf [janes_apparel; snow_shop; snow_shop_bis] /\ title sf = "Snow Shop" /\
     result_of (linkStorefront quiet sample_root tt linked_config
                  (explicit "Snow Shop") ∅) = Ok (Some sf) /\
     state_of (linkStorefront quiet sample_root tt linked_config
                 (explicit "Snow Shop") ∅) = <[sample_root := sf]> ∅ /\
     List.filter is_write
       (log_of (linkStorefront quiet sample_root tt linked_config
                  (explicit "Snow Shop") ∅)) = [ESetStorefront sample_root sf]) /\
  (result_of (linkStorefront quiet sample_root tt linked_config
                (explicit "snow shop") ∅) = Ok None /\
   state_of (linkStorefront quiet sample_root tt linked_config
               (explicit "snow shop") ∅) = ∅ /\
   writes (log_of (linkStorefront quiet sample_root tt linked_config
                     (explicit "snow shop") ∅)) = 0 /\
   List.filter is_warning
     (log_of (linkStorefront quiet sample_root tt linked_config
                (explicit "snow shop") ∅)) =
     [EWarning "Couldn't find snow shop"
        (not_found_body "snow shop" linked_config "npx shopify hydrogen")]).
Proof.
  split.
  - apply (linkStorefront_explicit_name quiet sample_root tt linked_config
             (explicit "Snow Shop") ∅ "Snow Shop"
             [janes_apparel; snow_shop; snow_shop_bis]);
      try reflexivity.
    + apply nonempty_string. reflexivity.
    + exists snow_shop. simpl. auto.
  - apply (linkStorefront_explicit_name quiet sample_root tt linked_config
             (explicit "snow shop") ∅ "snow shop"
             [janes_apparel; snow_shop; snow_shop_bis]);
      try reflexivity.
    + apply nonempty_string. reflexivity.
    + intros sf [<-|[<-|[<-|[]]]]; discriminate.
Defined.

(** C2 as stated fails: the creator returns a storefront and no [jobId],
    and [createNewStorefront] returns that storefront instead of raising
    the unknown error. *)
Lemma createNewStorefront_without_job_returns :
  create_response (sample_world true None created_without_job (Ok tt)) tt
    (project_name (sample_world true None created_without_job (Ok tt)) sample_root) =
    Ok (mkCreated (Some fresh_storefront) None) /\
  result_of (createNewStorefront (sample_world true None created_without_job (Ok tt))
               sample_root tt (∅ : Store)) = Ok fresh_storefront /\
  result_of (createNewStorefront (sample_world true None created_without_job (Ok tt))
               sample_root tt (∅ : Store)) <> Err (AbortError UNKNOWN_ERROR).
Proof. split; [|split]; [reflexivity | reflexivity | discriminate]. Qed.

Lemma createNewStorefront_without_job_witness :
  List.filter is_wait
    (log_of (createNewStorefront (sample_world true None created_without_job (Ok tt))
               sample_root tt (∅ : Store))) = [] /\
  List.filter (runs_task CREATING_API_TOKENS)
    (log_of (createNewStorefront (sample_world true None created_without_job (Ok tt))
               sample_root tt (∅ : Store))) = [] /\
  result_of (createNewStorefront (sample_world true None created_without_job (Ok tt))
               sample_root tt (∅ : Store)) = Ok fresh_storefront.
Proof.
  apply (createNewStorefront_without_job
           (sample_world true None created_without_job (Ok tt))
           sample_root tt ∅ (mkCreated (Some fresh_storefront) None));
    reflexivity.
Defined.


Lemma createNewStorefront_waiter_throws_witness :
  result_of (createNewStorefront failing_job sample_root tt (∅ : Store)) =
    Err (AbortError UNKNOWN_ERROR) /\
  result_of (createNewStorefront failing_job sample_root tt (∅ : Store)) <>
    Err (OtherError "job timed out").
Proof.
  destruct (createNewStorefront_waiter_throws failing_job sample_root tt (∅ : Store)
              (mkCreated (Some fresh_storefront) (Some "gid://shopify/Job/7"))
              "gid://shopify/Job/7" (OtherError "job timed out"))
    as (_ & _ & Hres & Hne); try reflexivity.
  - apply nonempty_string. reflexivity.
  - split; [exact Hres | apply Hne; discriminate].
Defined.

Lemma linkStorefront_declined_witness :
  result_of (linkStorefront (sample_world false None created_with_job (Ok tt))
               sample_root tt linked_config interactive ∅) = Ok None /\
  state_of (linkStorefront (sample_world false None created_with_job (Ok tt))
              sample_root tt linked_config interactive ∅) = ∅.
Proof.
  destruct (linkStorefront_declined (sample_world false None created_with_job (Ok tt))
              sample_root tt linked_config interactive ∅
              (mkLinked "gid://shopify/HydrogenStorefront/1" "Jane's Apparel"))
    as (Hres & Hst & _); try reflexivity.
  - apply nonempty_string. reflexivity.
  - split; [exact Hres | exact Hst].
Defined.

Lemma linkStorefront_no_shop_witness :
  result_of (linkStorefront quiet sample_root tt (mkConfig None None) interactive ∅) =
    Err (AbortError NO_SHOP) /\
  log_of (linkStorefront quiet sample_root tt (mkConfig None None) interactive ∅) = [].
Proof.
  destruct (linkStorefront_no_shop quiet sample_root tt (mkConfig None None)
              interactive ∅) as (Hres & Hlog & _); [reflexivity|].
  split; [exact Hres | exact Hlog].
Defined.


Lemma createNewStorefront_creator_throws_witness :
  result_of (createNewStorefront failing_creator sample_root tt (∅ : Store)) =
    Err (OtherError "Could not create storefront") /\
  List.filter is_wait
    (log_of (createNewStorefront failing_creator sample_root tt (∅ : Store))) = [].
Proof.
  destruct (createNewStorefront_creator_throws failing_creator sample_root tt
              (∅ : Store) (OtherError "Could not create storefront"))
    as (Hres & _ & Hwait & _); [reflexivity|].
  split; [exact Hres | exact Hwait].
Defined.

Lemma linkStorefront_first_match_witness :
  linkStorefront quiet sample_root tt sample_config (explicit "Snow Shop") ∅ =
    (Ok (Some snow_shop), <[sample_root := snow_shop]> ∅,
     [EGetStorefronts; ESetStorefront sample_root snow_shop]).
Proof.
  apply (linkStorefront_first_match quiet sample_root tt sample_config
           (explicit "Snow Shop") ∅ "Snow Shop" [janes_apparel] snow_shop
           [snow_shop_bis]);
    try reflexivity.
  - apply nonempty_string. reflexivity.
  - intros other [<-|[]]. discriminate.
Defined.

Lemma linkStorefront_relink_idempotent_witness :
  state_of
    (linkStorefront failing_job sample_root tt linked_config (forced "Snow Shop")
       (state_of (linkStorefront quiet sample_root tt sample_config
                    (forced "Snow Shop") ∅))) =
  state_of (linkStorefront quiet sample_root tt sample_config (forced "Snow Shop") ∅).
Proof.
  apply (linkStorefront_relink_idempotent quiet failing_job sample_root tt
           sample_config linked_config (forced "Snow Shop") ∅ "Snow Shop"
           [janes_apparel; snow_shop; snow_shop_bis]
           [janes_apparel; snow_shop; snow_shop_bis] snow_shop);
    try reflexivity.
  - apply nonempty_string. reflexivity.
  - exists [janes_apparel], [snow_shop_bis]. repeat split.
    intros other [<-|[]]. discriminate.
  - exists [janes_apparel], [snow_shop_bis]. repeat split.
    intros other [<-|[]]. discriminate.
Defined.

(** The user picks "Create a new storefront"; the storefront is created,
    its job completes, and the new storefront is the one written and
    returned. *)
Lemma linkStorefront_at_most_one_write_witness :
  writes (log_of (linkStorefront quiet sample_root tt sample_config interactive ∅)) <= 1 /\
  result_of (linkStorefront quiet sample_root tt sample_config interactive ∅) =
    Ok (Some fresh_storefront) /\
  state_of (linkStorefront quiet sample_root tt sample_config interactive ∅) =
    <[sample_root := fresh_storefront]> ∅.
Proof.
  destruct (linkStorefront_at_most_one_write quiet sample_root tt sample_config
              interactive ∅) as (Hn & Hw & _).
  split; [exact Hn|].
  apply (Hw sample_root fresh_storefront).
  vm_compute. repeat (first [left; reflexivity | right]).
Defined.

(** The waiter is called with the job that the creator returned. *)
Lemma waitForJob_jobId_defined_witness :
  exists jobId, Some "gid://shopify/Job/7" = Some jobId /\ jobId <> "".
Proof.
  apply (proj2 (waitForJob_jobId_defined quiet sample_root tt (∅ : Store))).
  vm_compute. repeat (first [left; reflexivity | right]).
Defined.

(** ** More about [linkStorefront] and [createNewStorefront] *)

(** The branches of [resolve], one goal each: the fetch fails; the flag
    matches or not; the pick is found or not; the pipeline returns or
    fails. *)
Ltac resolve_branches w root session l :=
  rewrite resolve_run;
  destruct (storefronts_response w session) as [l|?e] eqn:?Hfetch; cbv zeta;
  [ destruct (truthy _) eqn:?Hflag;
    [ destruct (find _ l) eqn:?Hfind
    | destruct (truthy (select_answer _ _ _)) eqn:?Hpick;
      [ destruct (find _ l) eqn:?Hfind
      | destruct (fst (creation_outcome w root session)) eqn:?Hcreated ] ]
  | ].

Section LinkMore.

Context {Session : Type}.
Variable w : World Session.

(** The three ways through lines 96-108. *)
Lemma linkStorefront_run root session config options (store : Store) :
  linkStorefront w root session config options store =
    if negb (truthy (shop config)) then (Err (AbortError NO_SHOP), store, [])
    else if overwrite_declined w config options
         then (Ok None, store, confirm_log config options)
         else
           (result_of (resolve w root session config (flagStorefront options)
                         (cliCommand options) store),
            state_of (resolve w root session config (flagStorefront options)
                        (cliCommand options) store),
            confirm_log config options ++
            log_of (resolve w root session config (flagStorefront options)
                      (cliCommand options) store)).
Proof.
  destruct (truthy (shop config)) eqn:Hs; cbn [negb].
  - destruct (overwrite_declined w config options) eqn:Hd.
    + apply linkStorefront_declines; assumption.
    + apply linkStorefront_proceeds; assumption.
  - apply linkStorefront_aborts; assumption.
Qed.

(** The calls of the creation pipeline, in order: the text prompt, the
    first task and the creator, then possibly the second task and the
    waiter. *)
Lemma creation_outcome_log root session :
  exists rest,
    snd (creation_outcome w root session) =
      ETextPrompt "New storefront name" (titleize w (basename w root)) ::
      ETask CREATING_STOREFRONT ::
      ECreateStorefront (project_name w root) :: rest /\
    (rest = [] \/
     exists jobId, jobId <> "" /\
       rest = [ETask CREATING_API_TOKENS; EWaitForJob (Some jobId)]).
Proof.
  unfold creation_outcome.
  destruct (create_response w session (project_name w root)) as [r|e].
  - destruct (truthy (created_jobId r)) eqn:Hj; cbn [snd].
    + apply truthy_Some in Hj as (jobId & -> & Hne). eauto 6.
    + eauto.
  - cbn [snd]. eauto.
Qed.

Lemma resolve_no_confirm root session config flag cliCommand (store : Store) :
  List.filter is_confirm
    (log_of (resolve w root session config flag cliCommand store)) = [].
Proof.
  destruct (creation_outcome_log root session) as (rest & Hlog & Hrest).
  resolve_branches w root session l; unfold log_of; cbn [snd]; try reflexivity;
    rewrite Hlog; destruct Hrest as [->|(jobId & _ & ->)]; reflexivity.
Qed.

(** X1: with [force] set, [linkStorefront] never asks for the overwrite
    confirmation, whatever the config, the flag and the answers of the
    collaborators; neither does it when no storefront is linked. *)
Theorem linkStorefront_force_never_confirms root session config options
    (store : Store) :
  default false (force options) = true \/ truthy (linked_id_of config) = false ->
  List.filter is_confirm
    (log_of (linkStorefront w root session config options store)) = [].
Proof.
  intros H. rewrite linkStorefront_run.
  assert (Hc : confirm_log config options = []).
  { unfold confirm_log. destruct H as [-> | ->]; cbn.
    - rewrite andb_false_r. reflexivity.
    - reflexivity. }
  repeat case_match; unfold log_of; cbn [snd]; rewrite ?Hc; try reflexivity.
  cbn [app]. apply resolve_no_confirm.
Qed.

(** X2: with a shop set, a storefront linked and [force] unset or false,
    the confirmation prompt is the first call that [linkStorefront] makes;
    it names the title of the linked storefront and is shown once. *)
Theorem linkStorefront_confirms_first root session config options (store : Store)
    linked :
  truthy (shop config) = true ->
  storefront config = Some linked -> linked_id linked <> "" ->
  default false (force options) = false ->
  exists rest,
    log_of (linkStorefront w root session config options store) =
      EConfirm ("Your project is currently linked to " +:+ linked_title linked +:+
                ". Do you want to link to a different Hydrogen storefront on Shopify?")
      :: rest /\
    List.filter is_confirm rest = [].
Proof.
  intros Hs Hl Hid Hf. rewrite linkStorefront_run, Hs. cbn [negb].
  assert (Hc : confirm_log config options = [EConfirm (overwrite_message linked)]).
  { unfold confirm_log, linked_id_of. rewrite Hl, (truthy_nonempty _ Hid), Hf.
    reflexivity. }
  rewrite Hc. destruct (overwrite_declined w config options); unfold log_of; cbn [snd].
  - exists []. split; reflexivity.
  - eexists. split; [reflexivity|]. apply resolve_no_confirm.
Qed.


(** [find] with the id test returns a storefront of the list with that
    id, if there is one. *)
Lemma find_id_exists picked storefronts :
  (exists sf, In sf storefronts /\ id sf = picked) ->
  exists sf, find (fun x => String.eqb (id x) picked) storefronts = Some sf /\
             In sf storefronts /\ id sf = picked.
Proof.
  intros (sf & Hin & Hid).
  destruct (find (fun x => String.eqb (id x) picked) storefronts) as [found|] eqn:Hf.
  - exists found. split; [reflexivity|].
    apply find_some in Hf as [Hin' E]. apply String.eqb_eq in E. auto.
  - exfalso. apply (find_none _ _ Hf) in Hin. apply String.eqb_neq in Hin. auto.
Qed.

Lemma find_id_none picked storefronts :
  (forall sf, In sf storefronts -> id sf <> picked) ->
  find (fun x => String.eqb (id x) picked) storefronts = None.
Proof.
  intros H.
  destruct (find (fun x => String.eqb (id x) picked) storefronts) as [found|] eqn:Hf;
    [|reflexivity].
  apply find_some in Hf as [Hin E]. apply String.eqb_eq in E.
  exfalso. exact (H _ Hin E).
Qed.

(** The interactive branch when the user picks a non-empty value. *)
Lemma resolve_pick root session config flag cliCommand (store : Store)
    storefronts picked :
  storefronts_response w session = Ok storefronts ->
  truthy flag = false ->
  select_answer w "Select a Hydrogen storefront to link" (select_choices storefronts) =
    Some picked ->
  picked <> "" ->
  resolve w root session config flag cliCommand store =
    match find (fun x => String.eqb (id x) picked) storefronts with
    | Some sf =>
        (Ok (Some sf), <[root := sf]> store,
         [EGetStorefronts;
          ESelect "Select a Hydrogen storefront to link" (select_choices storefronts);
          ESetStorefront root sf])
    | None =>
        (Ok None, store,
         [EGetStorefronts;
          ESelect "Select a Hydrogen storefront to link" (select_choices storefronts)])
    end.
Proof.
  intros Hr Hflag Hpick Hne. rewrite resolve_run, Hr. cbv zeta.
  rewrite Hflag, Hpick, (truthy_nonempty _ Hne). reflexivity.
Qed.

(** X3: in the interactive branch (shop set, no flag, overwrite not
    declined), when the user picks a non-empty id: if a fetched storefront
    has that id, one is written under the root and returned without any
    call to the creation pipeline; if none has it, the result is
    [undefined], nothing is written and, unlike in the explicit-name
    branch, no warning is emitted. *)
Theorem linkStorefront_interactive_pick root session config options (store : Store)
    storefronts picked :
  truthy (shop config) = true ->
  truthy (flagStorefront options) = false ->
  overwrite_declined w config options = false ->
  storefronts_response w session = Ok storefronts ->
  select_answer w "Select a Hydrogen storefront to link" (select_choices storefronts) =
    Some picked ->
  picked <> "" ->
  List.filter is_create
    (log_of (linkStorefront w root session config options store)) = [] /\
  List.filter is_text_prompt
    (log_of (linkStorefront w root session config options store)) = [] /\
  List.filter is_warning
    (log_of (linkStorefront w root session config options store)) = [] /\
  ((exists sf, In sf storefronts /\ id sf = picked) ->
   exists sf,
     In sf storefronts /\ id sf = picked /\
     result_of (linkStorefront w root session config options store) = Ok (Some sf) /\
     state_of (linkStorefront w root session config options store) =
       <[root := sf]> store) /\
  ((forall sf, In sf storefronts -> id sf <> picked) ->
   result_of (linkStorefront w root session config options store) = Ok None /\
   state_of (linkStorefront w root session config options store) = store /\
   writes (log_of (linkStorefront w root session config options store)) = 0).
Proof.
  intros Hs Hflag Hd Hr Hpick Hne.
  rewrite linkStorefront_run, Hs, Hd. cbn [negb].
  rewrite (resolve_pick _ _ _ _ _ _ _ _ Hr Hflag Hpick Hne).
  assert (Hc : confirm_log config options = [] \/
               exists m, confirm_log config options = [EConfirm m]).
  { unfold confirm_log. destruct (_ && _); eauto. }
  unfold result_of, state_of, log_of, writes; cbn [fst snd].
  repeat split.
  - destruct Hc as [->|(m & ->)]; destruct (find _ storefronts); reflexivity.
  - destruct Hc as [->|(m & ->)]; destruct (find _ storefronts); reflexivity.
  - destruct Hc as [->|(m & ->)]; destruct (find _ storefronts); reflexivity.
  - intros Hex. apply find_id_exists in Hex as (sf & -> & Hin & Hid).
    exists sf. auto.
  - apply find_id_none in H. rewrite H. reflexivity.
  - apply find_id_none in H. rewrite H. reflexivity.
  - apply find_id_none in H. rewrite H.
    destruct Hc as [->|(m & ->)]; reflexivity.
Qed.

(** The values offered by the select prompt, besides [null], are the ids
    of the fetched storefronts. *)
Lemma select_choices_values storefronts lbl picked :
  In (mkChoice lbl (Some picked)) (select_choices storefronts) ->
  exists sf, In sf storefronts /\ id sf = picked /\
             lbl = title sf +:+ " (" +:+ productionUrl sf +:+ ")".
Proof.
  unfold select_choices. intros [H|H]; [discriminate|].
  apply in_map_iff in H as (sf & Heq & Hin).
  injection Heq as <- <-. eauto.
Qed.

(** X4: the select prompt offers "Create a new storefront" with the value
    [null] first, then one choice per fetched storefront, in the order of
    the list; and when the user's answer is the (non-empty) value of one
    of the offered choices, [linkStorefront] links a fetched storefront
    with that id: it never comes back empty-handed. *)
Theorem linkStorefront_offered_choice root session config options (store : Store)
    storefronts lbl picked :
  truthy (shop config) = true ->
  truthy (flagStorefront options) = false ->
  overwrite_declined w config options = false ->
  storefronts_response w session = Ok storefronts ->
  select_answer w "Select a Hydrogen storefront to link" (select_choices storefronts) =
    Some picked ->
  picked <> "" ->
  In (mkChoice lbl (Some picked)) (select_choices storefronts) ->
  map value (select_choices storefronts) =
    None :: map (fun sf => Some (id sf)) storefronts /\
  exists sf,
    In sf storefronts /\ id sf = picked /\
    result_of (linkStorefront w root session config options store) = Ok (Some sf) /\
    state_of (linkStorefront w root session config options store) !! root = Some sf.
Proof.
  intros Hs Hflag Hd Hr Hpick Hne Hin. split.
  - unfold select_choices. cbn. rewrite map_map. reflexivity.
  - apply select_choices_values in Hin as (sf0 & Hin0 & Hid0 & _).
    destruct (find_id_exists picked storefronts) as (sf & Hf & Hin & Hid); [eauto|].
    exists sf. rewrite linkStorefront_run, Hs, Hd. cbn [negb].
    rewrite (resolve_pick _ _ _ _ _ _ _ _ Hr Hflag Hpick Hne), Hf.
    unfold result_of, state_of; cbn [fst snd].
    rewrite lookup_insert_eq. auto.
Qed.


(** X5: in the interactive branch, when the user picks "Create a new
    storefront" (the value [null]), the creation pipeline runs once and
    the list is not fetched again: one fetch, one text prompt, one call
    to the creator.  The storefront that the pipeline returns is written
    and returned; an error of the pipeline is the error of
    [linkStorefront], and nothing is written. *)
Theorem linkStorefront_create_new root session config options (store : Store)
    storefronts :
  truthy (shop config) = true ->
  truthy (flagStorefront options) = false ->
  overwrite_declined w config options = false ->
  storefronts_response w session = Ok storefronts ->
  select_answer w "Select a Hydrogen storefront to link" (select_choices storefronts) =
    None ->
  length (List.filter is_fetch
            (log_of (linkStorefront w root session config options store))) = 1 /\
  length (List.filter is_text_prompt
            (log_of (linkStorefront w root session config options store))) = 1 /\
  length (List.filter is_create
            (log_of (linkStorefront w root session config options store))) = 1 /\
  (forall sf,
     result_of (createNewStorefront w root session store) = Ok sf ->
     result_of (linkStorefront w root session config options store) = Ok (Some sf) /\
     state_of (linkStorefront w root session config options store) =
       <[root := sf]> store) /\
  (forall e,
     result_of (createNewStorefront w root session store) = Err e ->
     result_of (linkStorefront w root session config options store) = Err e /\
     state_of (linkStorefront w root session config options store) = store /\
     writes (log_of (linkStorefront w root session config options store)) = 0).
Proof.
  intros Hs Hflag Hd Hr Hpick.
  rewrite linkStorefront_run, Hs, Hd. cbn [negb].
  rewrite resolve_run, Hr. cbv zeta. rewrite Hflag, Hpick. cbn [truthy].
  rewrite createNewStorefront_outcome.
  destruct (creation_outcome_log root session) as (rest & Hlog & Hrest).
  assert (Hc : confirm_log config options = [] \/
               exists m, confirm_log config options = [EConfirm m]).
  { unfold confirm_log. destruct (_ && _); eauto. }
  unfold result_of, state_of, log_of, writes; cbn [fst snd].
  destruct (fst (creation_outcome w root session)) as [sf|e]; cbn [fst snd];
    rewrite Hlog.
  - split; [|split; [|split; [|split]]].
    1-3: destruct Hc as [->|(m & ->)]; destruct Hrest as [->|(jobId & _ & ->)];
      reflexivity.
    + intros sf' [= <-]. auto.
    + intros e [=].
  - split; [|split; [|split; [|split]]].
    1-3: destruct Hc as [->|(m & ->)]; destruct Hrest as [->|(jobId & _ & ->)];
      reflexivity.
    + intros sf [=].
    + intros e' [= <-]. split; [reflexivity|]. split; [reflexivity|].
      destruct Hc as [->|(m & ->)]; destruct Hrest as [->|(jobId & _ & ->)];
        reflexivity.
Qed.

(** X6: when the Remote Storefront Directory fails, [linkStorefront]
    fails with that error right after the fetch: no selection prompt, no
    warning, no write. *)
Theorem linkStorefront_fetch_fails root session config options (store : Store) e :
  truthy (shop config) = true ->
  overwrite_declined w config options = false ->
  storefronts_response w session = Err e ->
  result_of (linkStorefront w root session config options store) = Err e /\
  state_of (linkStorefront w root session config options store) = store /\
  log_of (linkStorefront w root session config options store) =
    confirm_log config options ++ [EGetStorefronts].
Proof.
  intros Hs Hd Hr. rewrite linkStorefront_run, Hs, Hd. cbn [negb].
  rewrite resolve_run, Hr. auto.
Qed.

Lemma resolve_store root session config flag cliCommand (store : Store) :
  state_of (resolve w root session config flag cliCommand store) =
    match result_of (resolve w root session config flag cliCommand store) with
    | Ok (Some sf) => <[root := sf]> store
    | _ => store
    end /\
  List.filter is_write (log_of (resolve w root session config flag cliCommand store)) =
    match result_of (resolve w root session config flag cliCommand store) with
    | Ok (Some sf) => [ESetStorefront root sf]
    | _ => []
    end.
Proof.
  pose proof (creation_outcome_no_write w root session) as Hnw.
  resolve_branches w root session l;
    unfold result_of, state_of, log_of; cbn [fst snd]; try (split; reflexivity).
  - split; [reflexivity|]. cbn. rewrite List.filter_app, Hnw. reflexivity.
  - split; [reflexivity|]. cbn. exact Hnw.
Qed.

(** The store and the writes of [linkStorefront], from its result. *)
Lemma linkStorefront_state_of_result root session config options (store : Store) :
  state_of (linkStorefront w root session config options store) =
    match result_of (linkStorefront w root session config options store) with
    | Ok (Some sf) => <[root := sf]> store
    | _ => store
    end /\
  List.filter is_write (log_of (linkStorefront w root session config options store)) =
    match result_of (linkStorefront w root session config options store) with
    | Ok (Some sf) => [ESetStorefront root sf]
    | _ => []
    end.
Proof.
  rewrite linkStorefront_run.
  destruct (truthy (shop config)); cbn [negb]; [|split; reflexivity].
  destruct (overwrite_declined w config options).
  - unfold result_of, state_of, log_of; cbn [fst snd].
    rewrite confirm_log_no_write. split; reflexivity.
  - destruct (resolve_store root session config (flagStorefront options)
                (cliCommand options) store) as [Hst Hw].
    unfold result_of, state_of, log_of in *; cbn [fst snd] in *.
    rewrite List.filter_app, confirm_log_no_write. cbn [app]. auto.
Qed.

(** X7: the store that [linkStorefront] leaves is determined by its
    result: when it returns a storefront, that storefront is the record
    of the project root and was written by the one write of the call;
    otherwise the store is the one it started from and nothing was
    written.  In both cases the records of all other roots are
    untouched. *)
Theorem linkStorefront_store root session config options (store : Store) :
  state_of (linkStorefront w root session config options store) =
    match result_of (linkStorefront w root session config options store) with
    | Ok (Some sf) => <[root := sf]> store
    | _ => store
    end /\
  List.filter is_write (log_of (linkStorefront w root session config options store)) =
    match result_of (linkStorefront w root session config options store) with
    | Ok (Some sf) => [ESetStorefront root sf]
    | _ => []
    end /\
  (forall other,
     other <> root ->
     state_of (linkStorefront w root session config options store) !! other =
       store !! other).
Proof.
  destruct (linkStorefront_state_of_result root session config options store)
    as [Hst Hw].
  split; [exact Hst|]. split; [exact Hw|].
  intros other Hne. rewrite Hst.
  destruct (result_of _) as [[sf|]|e]; try reflexivity.
  apply lookup_insert_ne. congruence.
Qed.

(** X8: an empty [flagStorefront] is no flag.  The call behaves exactly
    as without the flag: it shows the selection prompt whenever the list
    is fetched, and never emits the "Couldn't find" warning. *)
Theorem linkStorefront_empty_flag_is_interactive root session config frc cliCmd
    (store : Store) :
  linkStorefront w root session config (mkOptions frc (Some "") cliCmd) store =
    linkStorefront w root session config (mkOptions frc None cliCmd) store /\
  List.filter is_warning
    (log_of (linkStorefront w root session config (mkOptions frc (Some "") cliCmd)
               store)) = [] /\
  (forall storefronts,
     truthy (shop config) = true ->
     overwrite_declined w config (mkOptions frc (Some "") cliCmd) = false ->
     storefronts_response w session = Ok storefronts ->
     In (ESelect "Select a Hydrogen storefront to link" (select_choices storefronts))
        (log_of (linkStorefront w root session config (mkOptions frc (Some "") cliCmd)
                   store))).
Proof.
  destruct (creation_outcome_log root session) as (rest & Hlog & Hrest).
  assert (Hc : forall o, List.filter is_warning (confirm_log config o) = [])
    by (intros o; apply confirm_log_no_warning).
  split; [reflexivity|]. split.
  - rewrite linkStorefront_run.
    destruct (truthy (shop config)); cbn [negb]; [|reflexivity].
    destruct (overwrite_declined _ _ _); unfold log_of; cbn [snd];
      [apply Hc|].
    rewrite List.filter_app, Hc. cbn [app flagStorefront].
    rewrite resolve_run.
    destruct (storefronts_response w session) as [l|e]; [|reflexivity].
    cbv zeta. cbn [truthy String.eqb negb].
    destruct (truthy (select_answer _ _ _)).
    + destruct (find _ l); reflexivity.
    + destruct (fst (creation_outcome w root session)); cbn [snd];
        rewrite Hlog; destruct Hrest as [->|(jobId & _ & ->)]; reflexivity.
  - intros storefronts Hs Hd Hr.
    rewrite linkStorefront_run, Hs, Hd. cbn [negb flagStorefront].
    rewrite resolve_run, Hr. cbv zeta. cbn [truthy String.eqb negb].
    unfold log_of; cbn [snd]. apply in_or_app. right.
    destruct (truthy (select_answer _ _ _)).
    + destruct (find _ storefronts); cbn; auto.
    + destruct (fst (creation_outcome w root session)); cbn; auto.
Qed.

End LinkMore.

Section CreationMore.

Context {Session : Type}.
Variable w : World Session.

(** X9: in every world [createNewStorefront] first prompts for the name,
    with the titleized base name of the root as default, then calls the
    creator exactly once, with the user's answer as name; it calls the
    waiter at most once, after the creator and with a defined [jobId]; it
    never writes the Local Config Store and leaves the state as it was. *)
Theorem createNewStorefront_calls {St} root session (s : St) :
  state_of (createNewStorefront w root session s) = s /\
  exists rest,
    log_of (createNewStorefront w root session s) =
      ETextPrompt "New storefront name" (titleize w (basename w root)) ::
      ETask "Creating storefront" ::
      ECreateStorefront
        (text_answer w "New storefront name" (titleize w (basename w root))) ::
      rest /\
    (rest = [] \/
     exists jobId, jobId <> "" /\
       rest = [ETask "Creating API tokens"; EWaitForJob (Some jobId)]).
Proof.
  rewrite createNewStorefront_outcome. split; [reflexivity|].
  exact (creation_outcome_log w root session).
Qed.

(** X10: when the creator returns a storefront and a [jobId] and the
    waiter resolves, [createNewStorefront] returns the creator's
    storefront, having waited for exactly that job. *)
Theorem createNewStorefront_success {St} root session (s : St) r sf jobId :
  create_response w session (project_name w root) = Ok r ->
  created_storefront r = Some sf ->
  created_jobId r = Some jobId -> jobId <> "" ->
  job_response w session (Some jobId) = Ok tt ->
  result_of (createNewStorefront w root session s) = Ok sf /\
  List.filter is_wait (log_of (createNewStorefront w root session s)) =
    [EWaitForJob (Some jobId)] /\
  List.filter is_create (log_of (createNewStorefront w root session s)) =
    [ECreateStorefront (project_name w root)].
Proof.
  intros Hc Hsf Hj Hne Hw.
  rewrite createNewStorefront_outcome.
  unfold creation_outcome, result_of, log_of. rewrite Hc, Hj, (truthy_nonempty _ Hne), Hw, Hsf.
  cbn. auto.
Qed.

End CreationMore.

(** ** [runLink] *)

Section RunLinkFacts.

Context {Session : Type}.
Variable w : World Session.
Variable sh : Shell Session.

Lemma filter_success_linking (log : list Event) :
  List.filter is_success (map Linking log) = [].
Proof. induction log as [|ev log IH]; [reflexivity | exact IH]. Qed.

Lemma not_success_in_linking (log : list Event) body steps :
  ~ In (ESuccess body steps) (map Linking log).
Proof. intros H. apply in_map_iff in H as (ev & Heq & _). discriminate. Qed.

(** X11: [runLink] prints the success banner exactly when the project was
    linked in this run.  A banner in its log means that the call
    succeeded, that the record of the root ([path], or the working
    directory) is a storefront and that the banner names this
    storefront's title; it is then the last event, and the only banner.
    Without a banner the store is the one the command started from. *)
Theorem runLink_banner_iff_linked arguments (store : Store) :
  let root := default (cwd sh) (arg_path arguments) in
  let out := runLink w sh arguments store in
  (forall body steps,
     In (ESuccess body steps) (snd out) ->
     fst (fst out) = Ok tt /\
     exists sf cliCommand,
       snd (fst out) = <[root := sf]> store /\
       body = [UserInput (title sf); Text "is now linked"] /\
       cli_command_response sh = Ok cliCommand /\
       steps = [[Text "Run"; Command (cliCommand +:+ " dev");
                 Text "to start your local development server and start building"]] /\
       exists before, snd out = before ++ [ESuccess body steps] /\
                      List.filter is_success before = []) /\
  (List.filter is_success (snd out) = [] -> snd (fst out) = store).
Proof.
  intros root out. subst out. unfold runLink. fold root.
  unfold login_and_command.
  destruct (login_response sh root) as [[session config]|e1];
    destruct (cli_command_response sh) as [cliCommand|e2].
  2-4: (split; [intros body steps [H|[H|[]]]; discriminate | reflexivity]).
  set (options := mkOptions _ _ _).
  destruct (linkStorefront_state_of_result w root session config options store)
    as (Hst & _).
  destruct (linkStorefront w root session config options store)
    as [[[[sf|]|e] store1] log] eqn:Hlink;
    unfold result_of, state_of in Hst; cbn [fst snd] in Hst |- *.
  - split.
    + intros body steps [H|[H|H]]; try discriminate.
      apply in_app_or in H as [H|[H|[]]].
      * exfalso. exact (not_success_in_linking _ _ _ H).
      * injection H as <- <-. split; [reflexivity|].
        exists sf, cliCommand. repeat split; auto.
        exists (ELogin root :: EGetCliCommand :: map Linking log).
        split; [reflexivity|]. cbn. apply filter_success_linking.
    + cbn. rewrite List.filter_app, filter_success_linking. discriminate.
  - split; [|auto].
    intros body steps [H|[H|H]]; try discriminate.
    exfalso. exact (not_success_in_linking _ _ _ H).
  - split; [|auto].
    intros body steps [H|[H|H]]; try discriminate.
    exfalso. exact (not_success_in_linking _ _ _ H).
Qed.

(** X12: when [login] or [getCliCommand] fails, [runLink] fails with the
    error of one of them after having started both, and does not enter
    [linkStorefront]: no prompt, no fetch, no write. *)
Theorem runLink_login_fails arguments (store : Store) :
  let root := default (cwd sh) (arg_path arguments) in
  (exists e, login_response sh root = Err e) \/
  (exists e, cli_command_response sh = Err e) ->
  runLink w sh arguments store =
    (fst (fst (runLink w sh arguments store)), store, [ELogin root; EGetCliCommand]) /\
  exists e,
    fst (fst (runLink w sh arguments store)) = Err e /\
    (login_response sh root = Err e \/ cli_command_response sh = Err e).
Proof.
  intros root H. unfold runLink. fold root. unfold login_and_command.
  destruct (login_response sh root) as [[session config]|e1];
    destruct (cli_command_response sh) as [cliCommand|e2]; cbn.
  - destruct H as [(e & H)|(e & H)]; discriminate.
  - eauto.
  - eauto.
  - split; [reflexivity|]. destruct (login_rejects_first sh); eauto.
Qed.

End RunLinkFacts.

(** ** The report of the [build] command *)

Section BuildFacts.

Variable bw : BuildWorld.

(** The bundle is at least one megabyte exactly from 1048576 bytes on. *)
Lemma megabytes_threshold bytes :
  QArith_base.Qle_bool (QArith_base.inject_Z 1) (megabytes bytes) =
    (1048576 <=? bytes)%N.
Proof.
  apply eq_true_iff_eq.
  rewrite QArith_base.Qle_bool_iff, N.leb_le.
  unfold megabytes, QArith_base.Qle, QArith_base.Qdiv, QArith_base.Qmult,
    QArith_base.Qinv, QArith_base.inject_Z.
  change (1024 * 1024)%Z with 1048576%Z. cbn. lia.
Qed.

Lemma removeFiles_all filepaths :
  (forall f, In f filepaths -> removeFile_response bw f = Ok tt) ->
  removeFiles bw filepaths = (Ok tt, map BRemoveFile filepaths).
Proof.
  induction filepaths as [|f rest IH]; intros Hok; [reflexivity|].
  cbn. unfold bbind, bcall. rewrite (Hok f (or_introl eq_refl)).
  rewrite IH by (intros g Hg; apply Hok; right; exact Hg). reflexivity.
Qed.

Lemma removeFiles_stops before f after e :
  (forall g, In g before -> removeFile_response bw g = Ok tt) ->
  removeFile_response bw f = Err e ->
  removeFiles bw (before ++ f :: after) =
    (Err e, map BRemoveFile before ++ [BRemoveFile f]).
Proof.
  induction before as [|g before IH]; intros Hok Hf; cbn.
  - unfold bbind, bcall. rewrite Hf. reflexivity.
  - unfold bbind, bcall. rewrite (Hok g (or_introl eq_refl)).
    rewrite IH; [reflexivity | intros h Hh; apply Hok; right; exact Hh | exact Hf].
Qed.

(** Whatever happens, [removeFiles] only touches the files it is given. *)
Lemma removeFiles_log filepaths ev :
  In ev (snd (removeFiles bw filepaths)) ->
  exists f, ev = BRemoveFile f /\ In f filepaths.
Proof.
  induction filepaths as [|f rest IH]; cbn; [intros []|].
  unfold bbind, bcall.
  destruct (removeFile_response bw f) as [[]|e]; cbn.
  - destruct (removeFiles bw rest) as [r log]; cbn in *.
    intros [<-|H]; [eauto|]. destruct (IH H) as (g & -> & Hg). eauto.
  - intros [<-|[]]. eauto.
Qed.

(** Lines 329-362, branch by branch. *)
Lemma reportBundle_run env paths remixConfig options :
  reportBundle bw env paths remixConfig options =
    if not_development env then
      match fileSize_response bw (buildPathWorkerFile paths) with
      | Err e =>
          (Err e, [BTimeEnd LOG_WORKER_BUILT; BFileSize (buildPathWorkerFile paths)])
      | Ok bytes =>
          if default false (sourcemap options) then
            if truthy (env !! "HYDROGEN_ASSET_BASE_URL") then
              let pattern := joinPath bw (buildPathClient paths) "**/*.js.map" in
              match glob_response bw pattern with
              | Err e => (Err e, size_report bw paths remixConfig bytes ++ [BGlob pattern])
              | Ok filepaths =>
                  (fst (removeFiles bw filepaths),
                   size_report bw paths remixConfig bytes ++
                   BGlob pattern :: snd (removeFiles bw filepaths))
              end
            else (Ok tt, size_report bw paths remixConfig bytes ++
                         [BOutputWarn SOURCEMAP_WARNING])
          else (Ok tt, size_report bw paths remixConfig bytes)
      end
    else (Ok tt, []).
Proof.
  unfold reportBundle, size_report.
  destruct (not_development env); [|reflexivity].
  unfold bbind at 1, bcall at 1. unfold bbind at 1, bcall at 1.
  destruct (fileSize_response bw (buildPathWorkerFile paths)) as [bytes|e];
    [|reflexivity].
  rewrite megabytes_threshold. unfold bbind at 1, bcall at 1.
  destruct (default false (sourcemap options)).
  - unfold handleSourcemaps.
    destruct (truthy (env !! "HYDROGEN_ASSET_BASE_URL")).
    + cbv zeta. unfold bbind at 2, bcall.
      destruct (glob_response bw _) as [filepaths|e].
      * destruct (removeFiles bw filepaths) as [[u|e] logr];
          destruct (1048576 <=? bytes)%N; reflexivity.
      * destruct (1048576 <=? bytes)%N; reflexivity.
    + destruct (1048576 <=? bytes)%N; reflexivity.
  - destruct (1048576 <=? bytes)%N; reflexivity.
Qed.


(** Lines 364-378, branch by branch. *)
Lemma reportRoutes_run paths remixConfig options :
  reportRoutes bw paths remixConfig options =
    if default false (disableRouteWarning options) then (Ok tt, [])
    else
      match findMissingRoutes bw remixConfig with
      | [] => (Ok tt, [])
      | _ :: _ =>
          match getPackageManager_response bw (paths_root paths) with
          | Err e => (Err e, [BGetPackageManager (paths_root paths)])
          | Ok packageManager =>
              (Ok tt,
               [BGetPackageManager (paths_root paths);
                BOutputWarn
                  (routes_warning (length (findMissingRoutes bw remixConfig))
                     (if String.eqb packageManager "npm" then "npx"
                      else packageManager))])
          end
      end.
Proof.
  unfold reportRoutes.
  destruct (default false (disableRouteWarning options)); [reflexivity|].
  cbn [negb]. destruct (findMissingRoutes bw remixConfig) as [|r l]; [reflexivity|].
  cbn [length Nat.eqb negb]. unfold bbind, bcall, outputWarn.
  destruct (getPackageManager_response bw (paths_root paths)); reflexivity.
Qed.

Lemma reportRoutes_no_remove paths remixConfig options :
  List.filter is_remove (snd (reportRoutes bw paths remixConfig options)) = [].
Proof.
  rewrite reportRoutes_run.
  destruct (default false _); [reflexivity|].
  destruct (findMissingRoutes bw remixConfig); [reflexivity|].
  destruct (getPackageManager_response bw _); reflexivity.
Qed.

(** The report as a whole: the bundle report, then the route report
    unless the former threw, then [process.exit(0)] unless either threw. *)
Lemma reportBuild_run env paths remixConfig options :
  reportBuild bw env paths remixConfig options =
    match reportBundle bw env paths remixConfig options with
    | (Err e, log) => (Threw e, log)
    | (Ok _, log) =>
        match reportRoutes bw paths remixConfig options with
        | (Err e, log') => (Threw e, log ++ log')
        | (Ok _, log') => (Exited 0, log ++ log')
        end
    end.
Proof.
  unfold reportBuild, bbind.
  destruct (reportBundle bw env paths remixConfig options) as [[u|e] log];
    [|reflexivity].
  destruct (reportRoutes bw paths remixConfig options) as [[v|e] log']; reflexivity.
Qed.

Lemma size_report_no_remove paths remixConfig bytes :
  List.filter is_remove (size_report bw paths remixConfig bytes) = [].
Proof. unfold size_report. destruct (1048576 <=? bytes)%N; reflexivity. Qed.

Lemma not_removed (log : list BuildEvent) f :
  List.filter is_remove log = [] -> ~ In (BRemoveFile f) log.
Proof.
  intros Hf Hin.
  assert (H : In (BRemoveFile f) (List.filter is_remove log))
    by (apply List.filter_In; split; [exact Hin | reflexivity]).
  rewrite Hf in H. exact H.
Qed.

(** X13: the report deletes a file only in a build that is not a
    development build, with [sourcemap] on and [HYDROGEN_ASSET_BASE_URL]
    set, and then only a file that [glob] returned for the pattern
    [**/*.js.map] under the client build path. *)
Theorem reportBuild_removes_only_sourcemaps env paths remixConfig options f :
  In (BRemoveFile f) (snd (reportBuild bw env paths remixConfig options)) ->
  not_development env = true /\
  default false (sourcemap options) = true /\
  truthy (env !! "HYDROGEN_ASSET_BASE_URL") = true /\
  exists filepaths,
    glob_response bw (joinPath bw (buildPathClient paths) "**/*.js.map") =
      Ok filepaths /\
    In f filepaths.
Proof.
  intros H.
  assert (Hb : In (BRemoveFile f) (snd (reportBundle bw env paths remixConfig options))).
  { rewrite reportBuild_run in H.
    pose proof (reportRoutes_no_remove paths remixConfig options) as Hr.
    destruct (reportBundle bw env paths remixConfig options) as [[u|e] log];
      [|exact H].
    destruct (reportRoutes bw paths remixConfig options) as [[v|e] log'];
      cbn [snd] in *; apply in_app_or in H as [H|H]; try exact H;
      exfalso; exact (not_removed _ _ Hr H). }
  clear H. rewrite reportBundle_run in Hb.
  pose proof (size_report_no_remove paths remixConfig) as Hs.
  destruct (not_development env); [|destruct Hb].
  destruct (fileSize_response bw (buildPathWorkerFile paths)) as [bytes|e].
  2:{ destruct Hb as [H|[H|[]]]; discriminate. }
  destruct (default false (sourcemap options)).
  2:{ exfalso. exact (not_removed _ _ (Hs bytes) Hb). }
  destruct (truthy (env !! "HYDROGEN_ASSET_BASE_URL")).
  2:{ exfalso. cbn [snd] in Hb. apply in_app_or in Hb as [H|[H|[]]];
      [exact (not_removed _ _ (Hs bytes) H) | discriminate]. }
  cbv zeta in Hb.
  destruct (glob_response bw _) as [filepaths|e]; cbn [snd] in Hb.
  - repeat split. exists filepaths. split; [reflexivity|].
    apply in_app_or in Hb as [H|[H|H]].
    + exfalso. exact (not_removed _ _ (Hs bytes) H).
    + discriminate.
    + apply removeFiles_log in H as (g & [= <-] & Hg). exact Hg.
  - exfalso. apply in_app_or in Hb as [H|[H|[]]];
      [exact (not_removed _ _ (Hs bytes) H) | discriminate].
Qed.

(** X14: in such a build (not development, [sourcemap] on,
    [HYDROGEN_ASSET_BASE_URL] set), when the size is read, [glob] answers
    and every removal succeeds, the report removes every source map that
    [glob] returned, in order, right after the size report and without
    the "Sourcemaps are enabled" warning; the route report follows. *)
Theorem reportBuild_removes_all_sourcemaps env paths remixConfig options bytes
    filepaths :
  not_development env = true ->
  sourcemap options = Some true ->
  truthy (env !! "HYDROGEN_ASSET_BASE_URL") = true ->
  fileSize_response bw (buildPathWorkerFile paths) = Ok bytes ->
  glob_response bw (joinPath bw (buildPathClient paths) "**/*.js.map") = Ok filepaths ->
  (forall f, In f filepaths -> removeFile_response bw f = Ok tt) ->
  snd (reportBuild bw env paths remixConfig options) =
    size_report bw paths remixConfig bytes ++
    BGlob (joinPath bw (buildPathClient paths) "**/*.js.map") ::
    map BRemoveFile filepaths ++
    snd (reportRoutes bw paths remixConfig options) /\
  List.filter is_remove (snd (reportBuild bw env paths remixConfig options)) =
    map BRemoveFile filepaths.
Proof.
  intros Hdev Hsm Hurl Hsize Hglob Hok.
  assert (Hlog : snd (reportBuild bw env paths remixConfig options) =
                 size_report bw paths remixConfig bytes ++
                 BGlob (joinPath bw (buildPathClient paths) "**/*.js.map") ::
                 map BRemoveFile filepaths ++
                 snd (reportRoutes bw paths remixConfig options)).
  { rewrite reportBuild_run, reportBundle_run, Hdev, Hsize, Hsm. cbn [default from_option Datatypes.id].
    rewrite Hurl. cbv zeta. rewrite Hglob, (removeFiles_all _ Hok). cbn [fst snd].
    destruct (reportRoutes bw paths remixConfig options) as [[v|e] log']; cbn [snd];
      rewrite <- app_assoc; reflexivity. }
  split; [exact Hlog|]. rewrite Hlog.
  rewrite List.filter_app, size_report_no_remove. cbn [app List.filter is_remove].
  rewrite List.filter_app, reportRoutes_no_remove, app_nil_r.
  clear. induction filepaths as [|f rest IH]; [reflexivity|].
  cbn. f_equal. exact IH.
Qed.

(** X15: when a removal fails, the report stops there: the source maps
    before the failing one are removed, those after it are not, the route
    report does not run, and the command throws the error of the removal
    instead of exiting with status 0. *)
Theorem reportBuild_removal_fails env paths remixConfig options bytes
    before f after e :
  not_development env = true ->
  sourcemap options = Some true ->
  truthy (env !! "HYDROGEN_ASSET_BASE_URL") = true ->
  fileSize_response bw (buildPathWorkerFile paths) = Ok bytes ->
  glob_response bw (joinPath bw (buildPathClient paths) "**/*.js.map") =
    Ok (before ++ f :: after) ->
  (forall g, In g before -> removeFile_response bw g = Ok tt) ->
  removeFile_response bw f = Err e ->
  reportBuild bw env paths remixConfig options =
    (Threw e,
     size_report bw paths remixConfig bytes ++
     BGlob (joinPath bw (buildPathClient paths) "**/*.js.map") ::
     map BRemoveFile before ++ [BRemoveFile f]).
Proof.
  intros Hdev Hsm Hurl Hsize Hglob Hok Hf.
  rewrite reportBuild_run, reportBundle_run, Hdev, Hsize, Hsm. cbn [default from_option Datatypes.id].
  rewrite Hurl. cbv zeta. rewrite Hglob, (removeFiles_stops _ _ _ _ Hok Hf).
  reflexivity.
Qed.


Lemma BOutputWarn_inj a b : BOutputWarn a = BOutputWarn b -> a = b.
Proof. intros H. injection H as H. exact H. Qed.

Lemma bundle_warning_not_sourcemap remixConfig :
  bundle_warning remixConfig <> SOURCEMAP_WARNING.
Proof.
  unfold bundle_warning.
  destruct (default false (serverMinify remixConfig)); vm_compute; discriminate.
Qed.

Lemma bundle_warning_not_routes remixConfig missing exec :
  bundle_warning remixConfig <> routes_warning missing exec.
Proof.
  intros H. apply (f_equal first_byte) in H. discriminate H.
Qed.

(** After the size report come the source-map handling and the route
    report, none of which emits the bundle warning. *)
Lemma reportBuild_after_size env paths remixConfig options bytes :
  not_development env = true ->
  fileSize_response bw (buildPathWorkerFile paths) = Ok bytes ->
  exists rest,
    snd (reportBuild bw env paths remixConfig options) =
      size_report bw paths remixConfig bytes ++ rest /\
    ~ In (BOutputWarn (bundle_warning remixConfig)) rest.
Proof.
  intros Hdev Hsize.
  assert (Hroutes : ~ In (BOutputWarn (bundle_warning remixConfig))
                      (snd (reportRoutes bw paths remixConfig options))).
  { rewrite reportRoutes_run.
    destruct (default false _); [intros []|].
    destruct (findMissingRoutes bw remixConfig); [intros []|].
    destruct (getPackageManager_response bw _); cbn [snd In].
    - intros [H|[H|[]]]; [discriminate|]. apply BOutputWarn_inj in H.
      exact (bundle_warning_not_routes _ _ _ (eq_sym H)).
    - intros [H|[]]. discriminate. }
  assert (Hfiles : forall l, ~ In (BOutputWarn (bundle_warning remixConfig))
                               (snd (removeFiles bw l))).
  { intros l H. apply removeFiles_log in H as (f & H & _). discriminate. }
  assert (Hsm : BOutputWarn SOURCEMAP_WARNING <>
                BOutputWarn (bundle_warning remixConfig)).
  { intros H. apply BOutputWarn_inj in H.
    exact (bundle_warning_not_sourcemap _ (eq_sym H)). }
  rewrite reportBuild_run, reportBundle_run, Hdev, Hsize.
  destruct (reportRoutes bw paths remixConfig options) as [[v|e'] log'];
    cbn [snd] in Hroutes.
  all: destruct (default false (sourcemap options));
    [ destruct (truthy (env !! "HYDROGEN_ASSET_BASE_URL"));
      [ cbv zeta; destruct (glob_response bw _) as [filepaths|e];
        [ specialize (Hfiles filepaths);
          destruct (removeFiles bw filepaths) as [[u|e] logr];
          cbn [fst snd] in Hfiles |- * | cbn [snd] ]
      | cbn [snd] ]
    | cbn [snd] ].
  all: rewrite <- ?List.app_assoc; eexists; (split; [reflexivity|]).
  all: rewrite ?in_app_iff; cbn [In]; intuition discriminate.
Qed.

(** X16: in a build that is not a development build, once the size of
    the worker file is read, the report warns that the bundle exceeds
    1 MB exactly when the file has at least 1048576 bytes. *)
Theorem reportBuild_bundle_warning env paths remixConfig options bytes :
  not_development env = true ->
  fileSize_response bw (buildPathWorkerFile paths) = Ok bytes ->
  (In (BOutputWarn (bundle_warning remixConfig))
      (snd (reportBuild bw env paths remixConfig options)) <->
   (1048576 <= bytes)%N).
Proof.
  intros Hdev Hsize.
  destruct (reportBuild_after_size env paths remixConfig options bytes Hdev Hsize)
    as (rest & -> & Hrest).
  rewrite in_app_iff. unfold size_report. rewrite <- N.leb_le.
  destruct (1048576 <=? bytes)%N; cbn [app In].
  - split; [reflexivity|]. auto 6.
  - split; [|discriminate]. intros [[H|[H|[H|[]]]]|H]; try discriminate.
    contradiction.
Qed.

(** X17: the route report asks for the package manager only when the
    route warning is enabled and routes are missing.  Then, if the
    detection fails after a bundle report that went through, the command
    throws that error instead of exiting with status 0; if it answers,
    the command exits with status 0 and its last call is the warning,
    which names [npx] under npm and the package manager otherwise. *)
Theorem reportBuild_package_manager env paths remixConfig options :
  (forall r,
     In (BGetPackageManager r) (snd (reportBuild bw env paths remixConfig options)) ->
     r = paths_root paths /\
     default false (disableRouteWarning options) = false /\
     findMissingRoutes bw remixConfig <> []) /\
  (forall log,
     reportBundle bw env paths remixConfig options = (Ok tt, log) ->
     default false (disableRouteWarning options) = false ->
     findMissingRoutes bw remixConfig <> [] ->
     match getPackageManager_response bw (paths_root paths) with
     | Err e =>
         reportBuild bw env paths remixConfig options =
           (Threw e, log ++ [BGetPackageManager (paths_root paths)])
     | Ok packageManager =>
         reportBuild bw env paths remixConfig options =
           (Exited 0,
            log ++
            [BGetPackageManager (paths_root paths);
             BOutputWarn
               (routes_warning (length (findMissingRoutes bw remixConfig))
                  (if String.eqb packageManager "npm" then "npx"
                   else packageManager))])
     end).
Proof.
  split.
  - intros r H.
    assert (Hb : ~ In (BGetPackageManager r)
                   (snd (reportBundle bw env paths remixConfig options))).
    { rewrite reportBundle_run. unfold size_report.
      destruct (not_development env); [|intros []].
      destruct (fileSize_response bw _) as [bytes|e];
        [|intros [E|[E|[]]]; discriminate].
      assert (Hs : ~ In (BGetPackageManager r)
                     ([BTimeEnd LOG_WORKER_BUILT; BFileSize (buildPathWorkerFile paths);
                       BOutputSize (relativePath bw (paths_root paths)
                                      (buildPathWorkerFile paths)) bytes] ++
                      (if (1048576 <=? bytes)%N
                       then [BOutputWarn (bundle_warning remixConfig)] else []))).
      { destruct (1048576 <=? bytes)%N; cbn;
          [intros [E|[E|[E|[E|[]]]]] | intros [E|[E|[E|[]]]]]; discriminate. }
      destruct (default false (sourcemap options)); [|exact Hs].
      destruct (truthy _).
      - cbv zeta. destruct (glob_response bw _) as [filepaths|e]; cbn [snd];
          rewrite in_app_iff; cbn [In]; intros [E|[E|E]];
          try contradiction; try discriminate.
        apply removeFiles_log in E as (f & E & _). discriminate.
      - cbn [snd]. rewrite in_app_iff. cbn [In].
        intros [E|[E|[]]]; [contradiction | discriminate]. }
    rewrite reportBuild_run in H.
    destruct (reportBundle bw env paths remixConfig options) as [[u|e] log];
      cbn [snd] in Hb; [|contradiction].
    assert (Hr : In (BGetPackageManager r)
                   (snd (reportRoutes bw paths remixConfig options))).
    { destruct (reportRoutes bw paths remixConfig options) as [[v|e] log'];
        cbn [snd] in *; apply in_app_or in H as [H|H]; try contradiction; exact H. }
    clear H. rewrite reportRoutes_run in Hr.
    destruct (default false (disableRouteWarning options)); [destruct Hr|].
    destruct (findMissingRoutes bw remixConfig) as [|x l]; [destruct Hr|].
    destruct (getPackageManager_response bw _); cbn in Hr.
    + destruct Hr as [E|[E|[]]]; [|discriminate]. injection E as <-. auto.
    + destruct Hr as [E|[]]. injection E as <-. auto.
  - intros log Hb Hd Hm. rewrite reportBuild_run, Hb, reportRoutes_run, Hd.
    destruct (findMissingRoutes bw remixConfig) as [|x l]; [contradiction|].
    destruct (getPackageManager_response bw _); reflexivity.
Qed.

End BuildFacts.

(** X18: [runBuild] starts by defaulting [NODE_ENV]: afterwards the
    variable is set; a non-empty value is kept as it is, an unset or
    empty one becomes "production"; no other variable changes; doing it
    twice changes nothing more.  So a build started without [NODE_ENV] is
    never a development build: its report measures the bundle. *)
Theorem defaultNodeEnv_production (bw : BuildWorld) (env : ProcessEnv) :
  truthy (defaultNodeEnv env !! "NODE_ENV") = true /\
  (truthy (env !! "NODE_ENV") = true -> defaultNodeEnv env = env) /\
  (truthy (env !! "NODE_ENV") = false ->
   defaultNodeEnv env !! "NODE_ENV" = Some "production" /\
   forall paths remixConfig options,
   exists rest,
     snd (reportBuild bw (defaultNodeEnv env) paths remixConfig options) =
       BTimeEnd LOG_WORKER_BUILT :: BFileSize (buildPathWorkerFile paths) :: rest) /\
  (forall name, name <> "NODE_ENV" -> defaultNodeEnv env !! name = env !! name) /\
  defaultNodeEnv (defaultNodeEnv env) = defaultNodeEnv env.
Proof.
  assert (Hstart : forall e paths remixConfig options,
             not_development e = true ->
             exists rest,
               snd (reportBuild bw e paths remixConfig options) =
                 BTimeEnd LOG_WORKER_BUILT :: BFileSize (buildPathWorkerFile paths) ::
                 rest).
  { intros e paths remixConfig options Hdev.
    rewrite reportBuild_run, reportBundle_run, Hdev.
    destruct (fileSize_response bw _) as [bytes|e0] eqn:Hsize; [|cbn; eauto].
    destruct (reportBuild_after_size bw e paths remixConfig options bytes Hdev Hsize)
      as (rest & Hlog & _).
    rewrite reportBuild_run, reportBundle_run, Hdev, Hsize in Hlog.
    rewrite Hlog. unfold size_report. cbn [app]. eauto. }
  unfold defaultNodeEnv.
  destruct (truthy (env !! "NODE_ENV")) eqn:Ht; cbn [negb].
  - rewrite Ht. cbn [negb].
    split; [reflexivity|]. split; [auto|]. split; [discriminate|].
    split; reflexivity.
  - rewrite lookup_insert_eq. cbn [truthy String.eqb negb].
    split; [reflexivity|]. split; [discriminate|]. split; [|split].
    + intros _. split; [reflexivity|]. intros paths remixConfig options.
      apply Hstart. unfold not_development. rewrite lookup_insert_eq. reflexivity.
    + intros name Hne. apply lookup_insert_ne. congruence.
    + reflexivity.
Qed.

(** ** The cart cookie of the demo store *)

Lemma split_on_cons c a rest :
  split_on c (String a rest) =
    if Ascii.eqb a c then EmptyString :: split_on c rest
    else
      match split_on c rest with
      | segment :: segments => String a segment :: segments
      | [] => [String a EmptyString]
      end.
Proof. reflexivity. Qed.

Lemma split_on_without c s : contains c s = false -> split_on c s = [s].
Proof.
  induction s as [|a rest IH]; [reflexivity|].
  rewrite split_on_cons. cbn [contains].
  destruct (Ascii.eqb a c); [discriminate|].
  intros H. rewrite (IH H). reflexivity.
Qed.

(** The segments of a string that ends with the separator and a segment
    free of it: at least two, the last being that segment. *)
Lemma split_on_app c prefix segment :
  contains c segment = false ->
  exists first others,
    split_on c (prefix +:+ String c segment) = first :: others ++ [segment].
Proof.
  intros Hseg. induction prefix as [|a rest (first & others & IH)].
  - change (EmptyString +:+ String c segment) with (String c segment).
    rewrite split_on_cons, Ascii.eqb_refl, (split_on_without _ _ Hseg).
    exists EmptyString, []. reflexivity.
  - change (String a rest +:+ String c segment)
      with (String a (rest +:+ String c segment)).
    rewrite split_on_cons, IH. destruct (Ascii.eqb a c).
    + exists EmptyString, (first :: others). reflexivity.
    + exists (String a first), others. reflexivity.
Qed.

(** The last segment of a split never contains the separator. *)
Lemma split_on_last c s :
  exists segment, last (split_on c s) = Some segment /\ contains c segment = false.
Proof.
  induction s as [|a rest (segment & Hlast & Hfree)].
  - exists EmptyString. split; reflexivity.
  - rewrite split_on_cons. destruct (Ascii.eqb a c) eqn:E.
    + exists segment. split; [|exact Hfree].
      destruct (split_on c rest); [discriminate | exact Hlast].
    + destruct (split_on c rest) as [|x [|y l]]; [discriminate | |].
      * injection Hlast as ->. exists (String a segment).
        split; [reflexivity|]. cbn [contains]. rewrite E. exact Hfree.
      * exists segment. split; [exact Hlast | exact Hfree].
Qed.

Section CartCookie.

Variable parseCookie : string -> gmap string string.


(** X20: whatever the id, the cookie written by [setCartId] holds no
    slash after [cart=].  An id that ends with a slash gives the empty
    cookie [cart=], and from an empty or missing [cart] cookie, or
    without a [Cookie] header, [getCartId] returns [undefined]. *)
Theorem cart_cookie_edge_cases :
  (forall cartId,
     exists segment,
       cart_cookie cartId = "cart=" +:+ segment /\ contains slash segment = false) /\
  (forall prefix, cart_cookie (prefix +:+ "/") = "cart=") /\
  (forall header,
     truthy (parseCookie (default "" header) !! "cart") = false ->
     getCartId parseCookie header = None) /\
  getCartId parseCookie None = getCartId parseCookie (Some "").
Proof.
  split; [|split; [|split]].
  - intros cartId. unfold cart_cookie.
    destruct (split_on_last slash cartId) as (segment & -> & Hfree). eauto.
  - intros prefix. unfold cart_cookie.
    destruct (split_on_app slash prefix "" eq_refl) as (first & others & Hsplit).
    change (prefix +:+ "/") with (prefix +:+ String slash "").
    rewrite Hsplit. change (first :: others ++ [""]) with ((first :: others) ++ [""]).
    rewrite last_snoc. reflexivity.
  - intros header H. unfold getCartId.
    assert (E : (if truthy header then default "" header else "") = default "" header).
    { destruct header as [h|]; [|reflexivity]. cbn.
      destruct (String.eqb h "") eqn:Eh; [|reflexivity].
      apply String.eqb_eq in Eh. subst. reflexivity. }
    rewrite E, H. reflexivity.
  - reflexivity.
Qed.

End CartCookie.

(** ** The fetch handler of the demo store *)

Section FetchFacts.

Variable wk : Worker.

(** X21: without [env], or with a [SESSION_SECRET] that is missing or
    empty, [fetch] answers the 500 response "An unexpected error
    occurred" after logging the error; it opens no cache, starts no
    session and does not handle the request. *)
Theorem fetch_without_secret request env :
  env = None \/ (exists env', env = Some env' /\ truthy (SESSION_SECRET env') = false) ->
  fetch wk request env =
    (Ok (mkResponse 500 "An unexpected error occurred"),
     [SConsoleError (OtherError "SESSION_SECRET environment variable is not set")]).
Proof.
  intros [->|(env' & -> & H)]; unfold fetch, fetch_body; [reflexivity|].
  rewrite H. reflexivity.
Qed.

(** The calls of lines 30-84 are neither the handling of the request,
    nor the redirect lookup, nor [console.error]. *)
Lemma prepare_log request env :
  List.filter is_handle (snd (prepare wk request env)) = [] /\
  List.filter is_redirect (snd (prepare wk request env)) = [] /\
  List.filter is_console_error (snd (prepare wk request env)) = [].
Proof.
  unfold prepare, open_cache_and_session, sbind, scall.
  destruct (caches_open wk "hydrogen") as [[]|e1];
    destruct (session_init wk _) as [[]|e2]; try (repeat split; reflexivity).
  destruct (getLocaleFromRequest wk request) as [[]|e];
    [|repeat split; reflexivity].
  destruct (getStorefrontHeaders wk request) as [[]|e];
    [|repeat split; reflexivity].
  destruct (createStorefrontClient wk _ _) as [[]|e];
    [|repeat split; reflexivity].
  destruct (myCartQueries wk) as [[]|e]; [|repeat split; reflexivity].
  destruct (createRequestHandler wk) as [[]|e]; repeat split; reflexivity.
Qed.

(** [fetch], outcome by outcome. *)
Lemma fetch_run request env' :
  truthy (SESSION_SECRET env') = true ->
  fetch wk request (Some env') =
    match prepare wk request env' with
    | (Err e, log) => (Ok UNEXPECTED_ERROR, log ++ [SConsoleError e])
    | (Ok _, log) =>
        match handleRequest wk request with
        | Err e => (Ok UNEXPECTED_ERROR, log ++ [SHandleRequest; SConsoleError e])
        | Ok response =>
            if Nat.eqb (status response) 404 then
              match storefrontRedirect wk request response with
              | RedirectThrows e =>
                  (Ok UNEXPECTED_ERROR,
                   log ++ [SHandleRequest; SStorefrontRedirect response; SConsoleError e])
              | RedirectPromise outcome =>
                  (outcome, log ++ [SHandleRequest; SStorefrontRedirect response])
              end
            else (Ok response, log ++ [SHandleRequest])
        end
    end.
Proof.
  intros Hs. unfold fetch, fetch_body. rewrite Hs. cbn [negb].
  unfold sbind at 1.
  destruct (prepare wk request env') as [[u|e] log]; [|reflexivity].
  unfold sbind, scall.
  destruct (handleRequest wk request) as [response|e];
    [|cbn; rewrite <- ?List.app_assoc; reflexivity].
  destruct (Nat.eqb (status response) 404).
  - destruct (storefrontRedirect wk request response); cbn;
      rewrite <- ?List.app_assoc; reflexivity.
  - cbn. rewrite <- ?List.app_assoc. reflexivity.
Qed.

(** X22: [fetch] turns every failure into the 500 response, with one
    exception: the promise returned by [storefrontRedirect] is returned
    without being awaited, so its rejection is the rejection of
    [fetch].  [fetch] rejects only then: the request was handled, the
    status was 404 and the promise of [storefrontRedirect] rejected with
    that error, which is not logged. *)
Theorem fetch_rejects_only_through_redirect request env e :
  fst (fetch wk request env) = Err e ->
  exists response,
    handleRequest wk request = Ok response /\
    status response = 404 /\
    storefrontRedirect wk request response = RedirectPromise (Err e) /\
    List.filter is_console_error (snd (fetch wk request env)) = [].
Proof.
  destruct env as [env'|]; [|discriminate].
  destruct (truthy (SESSION_SECRET env')) eqn:Hs.
  2:{ unfold fetch, fetch_body. rewrite Hs. discriminate. }
  rewrite (fetch_run request env' Hs).
  destruct (prepare_log request env') as (_ & _ & Hl).
  destruct (prepare wk request env') as [[u|e'] log]; [|discriminate].
  destruct (handleRequest wk request) as [response|e']; [|discriminate].
  destruct (Nat.eqb (status response) 404) eqn:E; [|discriminate].
  destruct (storefrontRedirect wk request response) as [e'|outcome] eqn:Hr;
    [discriminate|].
  cbn [fst snd] in *. intros ->. exists response.
  apply Nat.eqb_eq in E.
  split; [reflexivity|]. split; [exact E|]. split; [exact Hr|].
  rewrite List.filter_app, Hl. reflexivity.
Qed.

(** X23: when [fetch] calls [console.error], it does so once, as its
    last call, and answers the 500 response "An unexpected error
    occurred": an error that is logged is never propagated. *)
Theorem fetch_logs_what_it_swallows request env :
  (forall error,
     In (SConsoleError error) (snd (fetch wk request env)) ->
     fst (fetch wk request env) = Ok (mkResponse 500 "An unexpected error occurred") /\
     exists before,
       snd (fetch wk request env) = before ++ [SConsoleError error] /\
       List.filter is_console_error before = []).
Proof.
  assert (Hnot : forall log error,
             List.filter is_console_error log = [] -> ~ In (SConsoleError error) log).
  { intros log error Hf Hin.
    assert (H : In (SConsoleError error) (List.filter is_console_error log))
      by (apply List.filter_In; split; [exact Hin | reflexivity]).
    rewrite Hf in H. exact H. }
  intros error.
  destruct env as [env'|].
  2:{ cbn. intros [H|[]]. injection H as <-. split; [reflexivity|].
      exists []. split; reflexivity. }
  destruct (truthy (SESSION_SECRET env')) eqn:Hs.
  2:{ unfold fetch, fetch_body. rewrite Hs. cbn.
      intros [H|[]]. injection H as <-. split; [reflexivity|].
      exists []. split; reflexivity. }
  rewrite (fetch_run request env' Hs).
  destruct (prepare_log request env') as (_ & _ & Hl).
  destruct (prepare wk request env') as [[u|e'] log]; cbn [fst snd] in *.
  2:{ intros H. apply in_app_or in H as [H|[H|[]]]; [destruct (Hnot _ _ Hl H)|].
      injection H as <-. split; [reflexivity|]. eauto. }
  destruct (handleRequest wk request) as [response|e']; cbn [fst snd].
  2:{ intros H. apply in_app_or in H as [H|[H|[H|[]]]];
        [destruct (Hnot _ _ Hl H) | discriminate |].
      injection H as <-. split; [reflexivity|].
      exists (log ++ [SHandleRequest]). rewrite <- List.app_assoc.
      split; [reflexivity|]. rewrite List.filter_app, Hl. reflexivity. }
  destruct (Nat.eqb (status response) 404); cbn [fst snd].
  2:{ intros H. apply in_app_or in H as [H|[H|[]]];
        [destruct (Hnot _ _ Hl H) | discriminate]. }
  destruct (storefrontRedirect wk request response) as [e'|outcome]; cbn [fst snd].
  - intros H. apply in_app_or in H as [H|[H|[H|[H|[]]]]];
      [destruct (Hnot _ _ Hl H) | discriminate | discriminate |].
    injection H as <-. split; [reflexivity|].
    exists (log ++ [SHandleRequest; SStorefrontRedirect response]).
    rewrite <- List.app_assoc. split; [reflexivity|].
    rewrite List.filter_app, Hl. reflexivity.
  - intros H. apply in_app_or in H as [H|[H|[H|[]]]];
      [destruct (Hnot _ _ Hl H) | discriminate | discriminate].
Qed.

(** X24: once the request is handled, a response whose status is not
    404 is returned as the request handler produced it and
    [storefrontRedirect] is not consulted; a 404 response is handed to
    [storefrontRedirect], once, and what it answers is what [fetch]
    answers. *)
Theorem fetch_redirects_only_404 request env response :
  In SHandleRequest (snd (fetch wk request env)) ->
  handleRequest wk request = Ok response ->
  (status response <> 404 ->
   fst (fetch wk request env) = Ok response /\
   List.filter is_redirect (snd (fetch wk request env)) = []) /\
  (status response = 404 ->
   List.filter is_redirect (snd (fetch wk request env)) =
     [SStorefrontRedirect response] /\
   forall outcome,
     storefrontRedirect wk request response = RedirectPromise outcome ->
     fst (fetch wk request env) = outcome).
Proof.
  assert (Hnot : forall log, List.filter is_handle log = [] -> ~ In SHandleRequest log).
  { intros log Hf Hin.
    assert (H : In SHandleRequest (List.filter is_handle log))
      by (apply List.filter_In; split; [exact Hin | reflexivity]).
    rewrite Hf in H. exact H. }
  destruct env as [env'|]; [|intros [H|[]]; discriminate].
  destruct (truthy (SESSION_SECRET env')) eqn:Hs.
  2:{ unfold fetch, fetch_body. rewrite Hs. intros [H|[]]. discriminate. }
  rewrite (fetch_run request env' Hs).
  destruct (prepare_log request env') as (Hh & Hr & _).
  destruct (prepare wk request env') as [[u|e'] log]; cbn [fst snd] in *.
  2:{ intros H. apply in_app_or in H as [H|[H|[]]];
        [destruct (Hnot _ Hh H) | discriminate]. }
  intros _ ->. split.
  - intros Hne. apply Nat.eqb_neq in Hne. rewrite Hne. cbn [fst snd].
    rewrite List.filter_app, Hr. auto.
  - intros E. apply Nat.eqb_eq in E. rewrite E.
    destruct (storefrontRedirect wk request response) as [e'|outcome];
      cbn [fst snd]; rewrite List.filter_app, Hr; (split; [reflexivity|]).
    + discriminate.
    + intros o [= <-]. reflexivity.
Qed.

End FetchFacts.

(** ** The additional properties at the sample data *)

Lemma linkStorefront_force_never_confirms_witness :
  List.filter is_confirm
    (log_of (linkStorefront quiet sample_root tt linked_config (forced "Snow Shop") ∅)) =
  [].
Proof.
  apply (linkStorefront_force_never_confirms quiet sample_root tt linked_config
           (forced "Snow Shop") ∅).
  left. reflexivity.
Defined.

Lemma linkStorefront_confirms_first_witness :
  exists rest,
    log_of (linkStorefront quiet sample_root tt linked_config (explicit "Snow Shop") ∅) =
      EConfirm "Your project is currently linked to Jane's Apparel. Do you want to link to a different Hydrogen storefront on Shopify?"
      :: rest /\
    List.filter is_confirm rest = [].
Proof.
  apply (linkStorefront_confirms_first quiet sample_root tt linked_config
           (explicit "Snow Shop") ∅
           (mkLinked "gid://shopify/HydrogenStorefront/1" "Jane's Apparel"));
    try reflexivity.
  apply nonempty_string. reflexivity.
Defined.

Lemma linkStorefront_interactive_pick_witness :
  exists sf,
    In sf [janes_apparel; snow_shop; snow_shop_bis] /\
    id sf = "gid://shopify/HydrogenStorefront/2" /\
    result_of (linkStorefront picking sample_root tt sample_config interactive ∅) =
      Ok (Some sf) /\
    state_of (linkStorefront picking sample_root tt sample_config interactive ∅) =
      <[sample_root := sf]> ∅.
Proof.
  destruct (linkStorefront_interactive_pick picking sample_root tt sample_config
              interactive ∅ [janes_apparel; snow_shop; snow_shop_bis]
              "gid://shopify/HydrogenStorefront/2")
    as (_ & _ & _ & Hfound & _); try reflexivity.
  - apply nonempty_string. reflexivity.
  - apply Hfound. exists snow_shop. simpl. auto.
Defined.

Lemma linkStorefront_offered_choice_witness :
  exists sf,
    In sf [janes_apparel; snow_shop; snow_shop_bis] /\
    id sf = "gid://shopify/HydrogenStorefront/2" /\
    result_of (linkStorefront picking sample_root tt sample_config interactive ∅) =
      Ok (Some sf) /\
    state_of (linkStorefront picking sample_root tt sample_config interactive ∅)
      !! sample_root = Some sf.
Proof.
  apply (linkStorefront_offered_choice picking sample_root tt sample_config
           interactive ∅ [janes_apparel; snow_shop; snow_shop_bis]
           "Snow Shop (https://snow.example)" "gid://shopify/HydrogenStorefront/2");
    try reflexivity.
  - apply nonempty_string. reflexivity.
  - simpl. auto.
Defined.

Lemma linkStorefront_create_new_witness :
  length (List.filter is_fetch
            (log_of (linkStorefront quiet sample_root tt sample_config interactive ∅))) = 1 /\
  length (List.filter is_create
            (log_of (linkStorefront quiet sample_root tt sample_config interactive ∅))) = 1.
Proof.
  destruct (linkStorefront_create_new quiet sample_root tt sample_config interactive ∅
              [janes_apparel; snow_shop; snow_shop_bis])
    as (Hfetch & _ & Hcreate & _); try reflexivity.
  split; [exact Hfetch | exact Hcreate].
Defined.

Lemma linkStorefront_fetch_fails_witness :
  result_of (linkStorefront unreachable sample_root tt sample_config interactive ∅) =
    Err (OtherError "request failed") /\
  state_of (linkStorefront unreachable sample_root tt sample_config interactive ∅) = ∅.
Proof.
  destruct (linkStorefront_fetch_fails unreachable sample_root tt sample_config
              interactive ∅ (OtherError "request failed"))
    as (Hres & Hst & _); try reflexivity.
  split; [exact Hres | exact Hst].
Defined.

Lemma createNewStorefront_success_witness :
  result_of (createNewStorefront quiet sample_root tt (∅ : Store)) = Ok fresh_storefront /\
  List.filter is_wait (log_of (createNewStorefront quiet sample_root tt (∅ : Store))) =
    [EWaitForJob (Some "gid://shopify/Job/7")].
Proof.
  destruct (createNewStorefront_success quiet sample_root tt (∅ : Store)
              (mkCreated (Some fresh_storefront) (Some "gid://shopify/Job/7"))
              fresh_storefront "gid://shopify/Job/7")
    as (Hres & Hwait & _); try reflexivity.
  - apply nonempty_string. reflexivity.
  - split; [exact Hres | exact Hwait].
Defined.

Lemma runLink_banner_iff_linked_witness :
  fst (fst (runLink quiet logged_in (mkArguments None None (Some "Snow Shop")) ∅)) =
    Ok tt /\
  exists sf cliCommand,
    snd (fst (runLink quiet logged_in (mkArguments None None (Some "Snow Shop")) ∅)) =
      <[sample_root := sf]> ∅ /\
    [UserInput "Snow Shop"; Text "is now linked"] =
      [UserInput (title sf); Text "is now linked"] /\
    cli_command_response logged_in = Ok cliCommand.
Proof.
  destruct (runLink_banner_iff_linked quiet logged_in
              (mkArguments None None (Some "Snow Shop")) ∅) as (Hbanner & _).
  destruct (Hbanner [UserInput "Snow Shop"; Text "is now linked"]
              [[Text "Run"; Command "npx shopify hydrogen dev";
                Text "to start your local development server and start building"]])
    as (Hres & sf & cliCommand & Hst & Hbody & Hcli & _).
  - vm_compute. repeat (first [left; reflexivity | right]).
  - split; [exact Hres|]. exists sf, cliCommand. auto.
Defined.

Lemma runLink_login_fails_witness :
  runLink quiet logged_out no_arguments ∅ =
    (fst (fst (runLink quiet logged_out no_arguments ∅)), ∅,
     [ELogin sample_root; EGetCliCommand]).
Proof.
  apply (runLink_login_fails quiet logged_out no_arguments ∅).
  left. exists (AbortError "Not logged in"). reflexivity.
Defined.

Lemma reportBuild_removes_only_sourcemaps_witness :
  exists filepaths,
    glob_response (sample_build 2097152 "" (Ok "npm")) "/app/dist/client/**/*.js.map" =
      Ok filepaths /\
    In "/app/dist/client/b.js.map" filepaths.
Proof.
  destruct (reportBuild_removes_only_sourcemaps (sample_build 2097152 "" (Ok "npm"))
              oxygen_env sample_paths sample_remix with_sourcemaps
              "/app/dist/client/b.js.map") as (_ & _ & _ & H).
  - vm_compute. repeat (first [left; reflexivity | right]).
  - exact H.
Defined.

Lemma reportBuild_removes_all_sourcemaps_witness :
  List.filter is_remove
    (snd (reportBuild (sample_build 2097152 "" (Ok "npm")) oxygen_env sample_paths
            sample_remix with_sourcemaps)) =
  [BRemoveFile "/app/dist/client/a.js.map"; BRemoveFile "/app/dist/client/b.js.map";
   BRemoveFile "/app/dist/client/c.js.map"].
Proof.
  refine (proj2 (reportBuild_removes_all_sourcemaps (sample_build 2097152 "" (Ok "npm"))
                   oxygen_env sample_paths sample_remix with_sourcemaps 2097152
                   sample_maps _ _ _ _ _ _));
    try reflexivity.
  intros f [<-|[<-|[<-|[]]]]; reflexivity.
Defined.

Lemma reportBuild_removal_fails_witness :
  reportBuild (sample_build 2097152 "/app/dist/client/b.js.map" (Ok "npm")) oxygen_env
    sample_paths sample_remix with_sourcemaps =
  (Threw (OtherError "EACCES"),
   size_report (sample_build 2097152 "/app/dist/client/b.js.map" (Ok "npm"))
     sample_paths sample_remix 2097152 ++
   [BGlob "/app/dist/client/**/*.js.map";
    BRemoveFile "/app/dist/client/a.js.map"; BRemoveFile "/app/dist/client/b.js.map"]).
Proof.
  apply (reportBuild_removal_fails
           (sample_build 2097152 "/app/dist/client/b.js.map" (Ok "npm")) oxygen_env
           sample_paths sample_remix with_sourcemaps 2097152
           ["/app/dist/client/a.js.map"] "/app/dist/client/b.js.map"
           ["/app/dist/client/c.js.map"] (OtherError "EACCES"));
    try reflexivity.
  intros g [<-|[]]. reflexivity.
Defined.

Lemma reportBuild_bundle_warning_witness :
  In (BOutputWarn (bundle_warning sample_remix))
     (snd (reportBuild (sample_build 1048576 "" (Ok "npm")) local_env sample_paths
             sample_remix with_sourcemaps)) /\
  ~ In (BOutputWarn (bundle_warning sample_remix))
       (snd (reportBuild (sample_build 1048575 "" (Ok "npm")) local_env sample_paths
               sample_remix with_sourcemaps)).
Proof.
  split.
  - apply (reportBuild_bundle_warning (sample_build 1048576 "" (Ok "npm")) local_env
             sample_paths sample_remix with_sourcemaps 1048576);
      [reflexivity | reflexivity | lia].
  - intros H.
    apply (reportBuild_bundle_warning (sample_build 1048575 "" (Ok "npm")) local_env
             sample_paths sample_remix with_sourcemaps 1048575) in H;
      [lia | reflexivity | reflexivity].
Defined.


Lemma fetch_without_secret_witness :
  fetch (sample_worker (Ok home_page) (RedirectPromise (Ok home_page))) sample_request
    (Some (mkWorkerEnv (Some "") None None)) =
  (Ok (mkResponse 500 "An unexpected error occurred"),
   [SConsoleError (OtherError "SESSION_SECRET environment variable is not set")]).
Proof.
  apply (fetch_without_secret (sample_worker (Ok home_page) (RedirectPromise (Ok home_page)))
           sample_request (Some (mkWorkerEnv (Some "") None None))).
  right. exists (mkWorkerEnv (Some "") None None). split; reflexivity.
Defined.

Lemma fetch_rejects_only_through_redirect_witness :
  exists response,
    handleRequest
      (sample_worker (Ok not_found) (RedirectPromise (Err (OtherError "redirect failed"))))
      sample_request = Ok response /\
    status response = 404.
Proof.
  destruct (fetch_rejects_only_through_redirect
              (sample_worker (Ok not_found)
                 (RedirectPromise (Err (OtherError "redirect failed"))))
              sample_request (Some sample_env) (OtherError "redirect failed"))
    as (response & Hh & Hs & _); [reflexivity|].
  exists response. split; [exact Hh | exact Hs].
Defined.

Lemma fetch_logs_what_it_swallows_witness :
  fst (fetch (sample_worker (Err (OtherError "render failed"))
                (RedirectPromise (Ok home_page))) sample_request (Some sample_env)) =
    Ok (mkResponse 500 "An unexpected error occurred").
Proof.
  destruct (fetch_logs_what_it_swallows
              (sample_worker (Err (OtherError "render failed"))
                 (RedirectPromise (Ok home_page)))
              sample_request (Some sample_env) (OtherError "render failed"))
    as (Hres & _).
  - vm_compute. repeat (first [left; reflexivity | right]).
  - exact Hres.
Defined.

Lemma fetch_redirects_only_404_witness :
  fst (fetch (sample_worker (Ok home_page) (RedirectPromise (Ok not_found)))
         sample_request (Some sample_env)) = Ok home_page /\
  fst (fetch (sample_worker (Ok not_found) (RedirectPromise (Ok home_page)))
         sample_request (Some sample_env)) = Ok home_page.
Proof.
  split.
  - destruct (fetch_redirects_only_404
                (sample_worker (Ok home_page) (RedirectPromise (Ok not_found)))
                sample_request (Some sample_env) home_page) as (Hpass & _);
      [vm_compute; repeat (first [left; reflexivity | right]) | reflexivity |].
    destruct Hpass as (Hres & _); [discriminate | exact Hres].
  - destruct (fetch_redirects_only_404
                (sample_worker (Ok not_found) (RedirectPromise (Ok home_page)))
                sample_request (Some sample_env) not_found) as (_ & Hredirect);
      [vm_compute; repeat (first [left; reflexivity | right]) | reflexivity |].
    destruct Hredirect as (_ & Hres); [reflexivity|].
    apply Hres. reflexivity.
Defined.
